(** * backendgpt: retry, backoff and parsing around a generative text service

    A shallow embedding of [backendgpt.py].  The module talks to three
    things it does not define: the remote model ([client.models.
    generate_content]), the JSON decoder ([json.loads]) and the clock
    ([time.sleep]).  The remote model is an oracle that lives in the world
    state, the decoder is a parameter of the development, and the clock
    leaves events in a trace, or refuses a length as CPython and the
    platform do.  Python's exceptions and early [return]s are threaded
    through a small state-and-error monad. *)

From Stdlib Require Import QArith Ascii.
From stdpp Require Import base strings list gmap.

Local Open Scope Z_scope.

(** ** Strings *)

Definition nl : string := String (Ascii.ascii_of_nat 10) EmptyString.
Definition dq : string := String (Ascii.ascii_of_nat 34) EmptyString.

(** ** Python values

    What [json.loads] can return, hence what a stage can return.  A JSON
    object becomes a [dict], kept as an association list in insertion
    order; [PyNone] is both JSON [null] and the stages' failure sentinel.
    A float is kept as the literal it was read from. *)

#[local] Set Warnings "-register-all".
#[local] Unset Elimination Schemes.
Inductive pyvalue : Type :=
| PyNone
| PyBool (b : bool)
| PyInt (n : Z)
| PyFloat (literal : string)
| PyStr (s : string)
| PyList (items : list pyvalue)
| PyDict (entries : list (string * pyvalue)).
#[local] Set Elimination Schemes.

(** ** Exceptions

    The subclasses of [Exception] the module can meet.  What is not one
    ([KeyboardInterrupt], [SystemExit]) comes from outside the program and
    is left out. *)

Inductive exn : Type :=
| APIError (code : Z) (message : string)   (* google.genai.errors.APIError *)
| JSONDecodeError (doc : string)           (* json.loads on a malformed document *)
| TypeError (message : string)             (* json.loads(None) *)
| ValueError (message : string)
| OverflowError (message : string)
| OSError (errno : Z) (message : string)
| OtherException (name message : string).  (* any other subclass of Exception *)

Definition is_APIError (e : exn) : bool :=
  match e with APIError _ _ => true | _ => false end.

Inductive result (A : Type) : Type :=
| Ok (a : A)
| Raise (e : exn).
Arguments Ok {A} a.
Arguments Raise {A} e.

(** ** The service interface (google.genai) *)

(** [genai.Client(api_key=...)]; the key is what [os.getenv] returned. *)
Record Client : Type := { api_key : option string }.

Record GenerateContentConfig : Type := {
  system_instruction : string;
  response_mime_type : string;
  temperature : Q;
  max_output_tokens : option Z
}.

Record request : Type := {
  model : string;
  contents : string;
  config : GenerateContentConfig
}.

(** [response.text] is [None] when the reply carries no text part. *)
Record GenerateContentResponse : Type := { text : option string }.

Inductive call_outcome : Type :=
| Returns (response : GenerateContentResponse)
| Raises (e : exn).

(** ** Console output

    The arguments of each [print(f"...")], before formatting. *)

Inductive message : Type :=
| EmptyResponseOn (attempt : Z)
| APIErrorOn (attempt : Z) (e : exn)
| UnexpectedErrorOn (attempt : Z) (e : exn)
| RetryingIn (wait_time : Z)
| AttemptFailed (attempt : Z) (e : exn)
| MaxRetriesReached (what : string).

(** ** World, events, and the monad *)

Inductive event : Type :=
| Call (c : Client) (req : request)
| Sleep (secs : Z)
| Print (m : message).

(** [service w i c req] is what the remote model answers to the [i]-th call
    from now on, should that call be [req] made through client [c].
    [clock w secs] is what the platform does with a sleep of [secs] seconds
    where CPython leaves it to the platform: [None] when it sleeps, [Some e]
    when it raises [e]. *)
Record world : Type := {
  service : nat → Client → request → call_outcome;
  clock : Z → option exn;
  trace : list event
}.

Definition M (A : Type) : Type := world → result A * world.

Global Instance M_ret : MRet M := λ A (a : A) w, (Ok a, w).
Global Instance M_bind : MBind M := λ A B (f : A → M B) (m : M A) w,
  match m w with
  | (Ok a, w') => f a w'
  | (Raise e, w') => (Raise e, w')
  end.

Definition raise {A} (e : exn) : M A := λ w, (Raise e, w).

(** [try: m except Exception as e: handler e] *)
Definition try_except {A} (m : M A) (handler : exn → M A) : M A := λ w,
  match m w with
  | (Ok a, w') => (Ok a, w')
  | (Raise e, w') => handler e w'
  end.

Definition emit (e : event) : M unit := λ w,
  (Ok (), {| service := service w; clock := clock w; trace := trace w ++ [e] |}).

Definition print (m : message) : M unit := emit (Print m).

(** [time.sleep(secs)] on an [int].  The length is first turned into
    nanoseconds on 64 bits, which fails with [OverflowError] beyond
    9223372036 seconds either way; a negative length is then refused with
    [ValueError].  Up to 4294967 seconds, the most a 32-bit count of
    milliseconds holds, every platform sleeps; above, the platform decides
    (an absolute deadline past the range of the system clock is refused
    with [OSError]).  A refused sleep does not sleep. *)
Definition sleep_max : Z := 9223372036.
Definition sleep_sure : Z := 4294967.

Definition sleep_refusal (clock : Z → option exn) (secs : Z) : option exn :=
  if bool_decide (secs < - sleep_max ∨ sleep_max < secs)
  then Some (OverflowError "timestamp too large to convert to C _PyTime_t")
  else if bool_decide (secs < 0)
  then Some (ValueError "sleep length must be non-negative")
  else if bool_decide (secs ≤ sleep_sure)
  then None
  else clock secs.

Definition sleep (secs : Z) : M unit := λ w,
  match sleep_refusal (clock w) secs with
  | Some e => raise e w
  | None => emit (Sleep secs) w
  end.

(** [c.models.generate_content(model=..., contents=..., config=...)]: one
    call reaches the service, which answers or raises. *)
Definition generate_content (c : Client) (model : string) (contents : string)
    (config : GenerateContentConfig) : M GenerateContentResponse := λ w,
  let req := {| model := model; contents := contents; config := config |} in
  let w' := {| service := λ i, service w (S i); clock := clock w;
               trace := trace w ++ [Call c req] |} in
  match service w 0%nat c req with
  | Returns response => (Ok response, w')
  | Raises e => (Raise e, w')
  end.

(** [range(lo, hi)] *)
Definition py_range (lo hi : Z) : list Z :=
  (λ i : nat, lo + Z.of_nat i) <$> seq 0 (Z.to_nat (hi - lo)).

(** [for x in xs: body x], where the body may [return]: [Some v] leaves the
    function with [v], [None] falls through to the next iteration. *)
Fixpoint for_each {A} (xs : list Z) (body : Z → M (option A)) : M (option A) :=
  match xs with
  | [] => mret None
  | x :: xs' =>
      r ← body x;
      match r with
      | Some v => mret (Some v)
      | None => for_each xs' body
      end
  end.

(** Truth value of an optional string, as in [if response.text] and
    [if not GEMINI_API_KEY]: [None] and the empty string are falsy. *)
Definition truthy (s : option string) : bool :=
  match s with
  | None => false
  | Some s => negb (String.eqb s EmptyString)
  end.

(** ** Module initialisation *)

(** [load_dotenv()]: the variables read from the [.env] file ([dotenv],
    empty when there is no file) are added to the environment; a variable
    that is already set keeps its value. *)
Definition load_dotenv (dotenv environ : gmap string string) : gmap string string :=
  environ ∪ dotenv.

Definition getenv (environ : gmap string string) (name : string) : option string :=
  environ !! name.

Record module_globals : Type := {
  GEMINI_API_KEY : option string;
  client : Client
}.

Definition MODEL_ID : string := "gemini-2.5-flash-lite".

(** The statements at the top level of the module, lines 9 to 20. *)
Definition module_init (dotenv environ : gmap string string) : result module_globals :=
  let environ := load_dotenv dotenv environ in
  let GEMINI_API_KEY := getenv environ "GEMINI_API_KEY" in
  if negb (truthy GEMINI_API_KEY)
  then Raise (ValueError
                "❌ Missing API Key! Set 'GEMINI_API_KEY' in your environment variables.")
  else Ok {| GEMINI_API_KEY := GEMINI_API_KEY; client := {| api_key := GEMINI_API_KEY |} |}.

(** A program that imports the module and then uses it: the stage
    functions exist only once [module_init] has gone through. *)
Definition import_then {A} (dotenv environ : gmap string string)
    (main : module_globals → M A) : M A :=
  match module_init dotenv environ with
  | Ok globals => main globals
  | Raise e => raise e
  end.

(** ** Prompts *)

Definition subtopics_system_prompt (user_question : string) : string :=
  String.concat nl
    [ EmptyString;
      "    You are a learning design assistant.";
      "    ";
      "    Given a student's curiosity-based question, your job is NOT to answer it directly. Instead, analyze it and return the following in JSON format:";
      "    ";
      "    - subject_area: Which academic subject(s) this question touches (e.g., Science, Math, History, etc.)";
      "    - depth_level: Introductory / Intermediate / Advanced";
      "    - question_type: Factual / Conceptual / Procedural / Opinion / Open-Ended";
      "    - curiosity_tree: A list of 3–5 short, focused subtopics that help explore this question further";
      "    ";
      "    Return your result as a raw JSON object **without any code block formatting**, like this:";
      "    {";
      "      " +:+ dq +:+ "subject_area" +:+ dq +:+ ": " +:+ dq +:+ "..." +:+ dq +:+ ",";
      "      " +:+ dq +:+ "depth_level" +:+ dq +:+ ": " +:+ dq +:+ "..." +:+ dq +:+ ",";
      "      " +:+ dq +:+ "question_type" +:+ dq +:+ ": " +:+ dq +:+ "..." +:+ dq +:+ ",";
      "      " +:+ dq +:+ "curiosity_tree" +:+ dq +:+ ": [";
      "        " +:+ dq +:+ "..." +:+ dq +:+ ",";
      "        " +:+ dq +:+ "..." +:+ dq +:+ ",";
      "        " +:+ dq +:+ "..." +:+ dq +:+ ",";
      "        " +:+ dq +:+ "..." +:+ dq;
      "      ]";
      "    }";
      "    ";
      "    Here is the question to analyze:";
      "    " +:+ dq +:+ user_question +:+ dq;
      "    " ].

Definition explanation_system_prompt (subtopic user_question : string) : string :=
  String.concat nl
    [ EmptyString;
      "    You are an educational tutor and interaction designer that provides clear, engaging explanations for specific topics related to a student's curiosity.";
      EmptyString;
      "    The student's broader curiosity question is:";
      "    " +:+ dq +:+ user_question +:+ dq;
      EmptyString;
      "    One of the subtopics to help explain this question is:";
      "    " +:+ dq +:+ subtopic +:+ dq;
      EmptyString;
      "    Your task:";
      EmptyString;
      "    1. Write a explanation about the **subtopic only**. The explanation should:";
      "    - Have a maximum of 500 words and a minimum of 100 words";
      "    - Be written for an undergraduate-level audience";
      "    - Use analogies or simple examples if helpful";
      "    - Avoid heavy technical jargon";
      "    - Do **not** attempt to answer the full original curiosity question";
      EmptyString;
      "    2. Based on your explanation, choose any random template from the following list:";
      EmptyString;
      "    Available templates:";
      "    - drag_drop: Drag items into the relevant categories";
      "    - match_pairs: Match terms to their correct definitions";
      "    - fill_blanks: Fill in missing parts of a formula or sentence";
      "    - toggle_true_false: Quickfire true/false quiz";
      EmptyString;
      "    3. Return your result as a raw JSON object **without any code block formatting**, like this:";
      EmptyString;
      "    {";
      "      " +:+ dq +:+ "Topic" +:+ dq +:+ ": " +:+ dq +:+ "..." +:+ dq +:+ ",";
      "      " +:+ dq +:+ "Explanation" +:+ dq +:+ ": " +:+ dq +:+ "..." +:+ dq +:+ ",";
      "      " +:+ dq +:+ "Interactive Template" +:+ dq +:+ ": " +:+ dq +:+ "..." +:+ dq;
      "    }";
      EmptyString;
      "    Now, perform the task and return only the JSON object.";
      "    " ].

Definition activity_system_prompt (topic explanation template_type : string) : string :=
  String.concat nl
    [ EmptyString;
      "    You are an educational interaction designer.";
      "    ";
      "    Given a topic, an explanation, and a selected template type, your job is to generate an interactive activity in the following JSON format:";
      "    For each activity, include around 5-7 questions.";
      "    If the template is `drag_drop`, structure it like this:";
      "    ";
      "    {";
      "      " +:+ dq +:+ "id" +:+ dq +:+ ": " +:+ dq +:+ "unique-id-for-the-activity" +:+ dq +:+ ",";
      "      " +:+ dq +:+ "type" +:+ dq +:+ ": " +:+ dq +:+ "drag_drop" +:+ dq +:+ ",";
      "      " +:+ dq +:+ "title" +:+ dq +:+ ": " +:+ dq +:+ "Title of the Game" +:+ dq +:+ ",";
      "      " +:+ dq +:+ "description" +:+ dq +:+ ": " +:+ dq +:+ "One-line description of the drag-and-drop activity." +:+ dq +:+ ",";
      "      " +:+ dq +:+ "draggableElements" +:+ dq +:+ ": [";
      "        { " +:+ dq +:+ "id" +:+ dq +:+ ": " +:+ dq +:+ "id1" +:+ dq +:+ ", " +:+ dq +:+ "label" +:+ dq +:+ ": " +:+ dq +:+ "Draggable Term 1" +:+ dq +:+ " },";
      "        { " +:+ dq +:+ "id" +:+ dq +:+ ": " +:+ dq +:+ "id2" +:+ dq +:+ ", " +:+ dq +:+ "label" +:+ dq +:+ ": " +:+ dq +:+ "Draggable Term 2" +:+ dq +:+ " }";
      "      ],";
      "      " +:+ dq +:+ "droppableBlanks" +:+ dq +:+ ": [";
      "        {";
      "          " +:+ dq +:+ "id" +:+ dq +:+ ": " +:+ dq +:+ "drop-1" +:+ dq +:+ ",";
      "          " +:+ dq +:+ "label" +:+ dq +:+ ": " +:+ dq +:+ "Hint or definition where a term should go" +:+ dq +:+ ",";
      "          " +:+ dq +:+ "correctElementId" +:+ dq +:+ ": " +:+ dq +:+ "id1" +:+ dq;
      "        }";
      "      ]";
      "    }";
      EmptyString;
      "    Any label should be max 5 words.";
      "    ";
      "    If the selected template is `match_pairs`, respond with a JSON object in this format:";
      EmptyString;
      "    {";
      "      " +:+ dq +:+ "id" +:+ dq +:+ ": " +:+ dq +:+ "photosynthesis-basics" +:+ dq +:+ ",";
      "      " +:+ dq +:+ "type" +:+ dq +:+ ": " +:+ dq +:+ "match" +:+ dq +:+ ",";
      "      " +:+ dq +:+ "title" +:+ dq +:+ ": " +:+ dq +:+ "Key Concepts in Photosynthesis" +:+ dq +:+ ",";
      "      " +:+ dq +:+ "description" +:+ dq +:+ ": " +:+ dq +:+ "Match each photosynthesis-related term with its correct definition." +:+ dq +:+ ",";
      "      " +:+ dq +:+ "pairs" +:+ dq +:+ ": [";
      "        { " +:+ dq +:+ "prompt" +:+ dq +:+ ": " +:+ dq +:+ "Chlorophyll" +:+ dq +:+ ", " +:+ dq +:+ "match" +:+ dq +:+ ": " +:+ dq +:+ "Green pigment that captures light energy" +:+ dq +:+ " },";
      "        { " +:+ dq +:+ "prompt" +:+ dq +:+ ": " +:+ dq +:+ "Stomata" +:+ dq +:+ ", " +:+ dq +:+ "match" +:+ dq +:+ ": " +:+ dq +:+ "Tiny pores on leaves where gas exchange occurs" +:+ dq +:+ " }";
      "      ]";
      "    }";
      "    ";
      "    Instructions:";
      "    - Use `prompt` for terms, processes, or concepts.";
      "    - Use `match` for definitions, functions, or descriptions (max 5 words).";
      "    - Do NOT include:";
      "      - Synonyms (e.g., avoid “plant sugar” → “glucose” if “glucose” is already a prompt)";
      "      - Nicknames (e.g., no “sun sugar” → “glucose”)";
      "      - Repeated ideas";
      "    - Keep explanations short, factual, and directly linked to the topic.";
      "    - Each pair should be unique and unambiguous.";
      "    ";
      "    If the template is `fill_blanks`, structure it like this:";
      "    ";
      "    {";
      "      " +:+ dq +:+ "id" +:+ dq +:+ ": " +:+ dq +:+ "unique-id" +:+ dq +:+ ",";
      "      " +:+ dq +:+ "type" +:+ dq +:+ ": " +:+ dq +:+ "fill_in_blanks" +:+ dq +:+ ",";
      "      " +:+ dq +:+ "title" +:+ dq +:+ ": " +:+ dq +:+ "Fill in the Blanks" +:+ dq +:+ ",";
      "      " +:+ dq +:+ "description" +:+ dq +:+ ": " +:+ dq +:+ "Fill in the blanks using the correct terms." +:+ dq +:+ ",";
      "      " +:+ dq +:+ "text" +:+ dq +:+ ": " +:+ dq +:+ "... with ___ and ___" +:+ dq +:+ ",";
      "      " +:+ dq +:+ "blanks" +:+ dq +:+ ": {";
      "        " +:+ dq +:+ "1" +:+ dq +:+ ": [" +:+ dq +:+ "Melanin" +:+ dq +:+ ", " +:+ dq +:+ "Keratin" +:+ dq +:+ ", " +:+ dq +:+ "Chlorophyll" +:+ dq +:+ "],";
      "        " +:+ dq +:+ "2" +:+ dq +:+ ": [" +:+ dq +:+ "Melanocytes" +:+ dq +:+ ", " +:+ dq +:+ "Blood cells" +:+ dq +:+ ", " +:+ dq +:+ "Nerve cells" +:+ dq +:+ "]";
      "      },";
      "      " +:+ dq +:+ "answers" +:+ dq +:+ ": {";
      "        " +:+ dq +:+ "1" +:+ dq +:+ ": " +:+ dq +:+ "Melanin" +:+ dq +:+ ",";
      "        " +:+ dq +:+ "2" +:+ dq +:+ ": " +:+ dq +:+ "Melanocytes" +:+ dq;
      "      }";
      "    }";
      "    ";
      "    If the template is `toggle_true_false`, structure it like this:";
      "    ";
      "    {";
      "      " +:+ dq +:+ "id" +:+ dq +:+ ": " +:+ dq +:+ "unique-id" +:+ dq +:+ ",";
      "      " +:+ dq +:+ "type" +:+ dq +:+ ": " +:+ dq +:+ "toggle_true_false" +:+ dq +:+ ",";
      "      " +:+ dq +:+ "title" +:+ dq +:+ ": " +:+ dq +:+ "True or False" +:+ dq +:+ ",";
      "      " +:+ dq +:+ "description" +:+ dq +:+ ": " +:+ dq +:+ "Decide if the following statements are true or false." +:+ dq +:+ ",";
      "      " +:+ dq +:+ "statements" +:+ dq +:+ ": [";
      "        { " +:+ dq +:+ "id" +:+ dq +:+ ": " +:+ dq +:+ "s1" +:+ dq +:+ ", " +:+ dq +:+ "text" +:+ dq +:+ ": " +:+ dq +:+ "Melanin protects the skin from UV radiation." +:+ dq +:+ ", " +:+ dq +:+ "correctAnswer" +:+ dq +:+ ": true }";
      "      ]";
      "    }";
      "    ";
      "    Now generate a JSON object using the format for this template:";
      "    Topic: " +:+ topic;
      "    Explanation: " +:+ explanation;
      "    Interactive Template: " +:+ template_type;
      "    ";
      "    Respond ONLY with the JSON object.";
      "    " ].

(** ** The three stages *)

(** Defaults of the keyword parameters. *)
Definition default_retries : Z := 1.
Definition default_delay : Z := 3.
Definition default_template_type : string := "drag_drop".

Section Stages.

(** [json.JSONDecoder().decode]: the value of a document, or [None] where
    Python raises [JSONDecodeError]. *)
Variable decode : string → option pyvalue.

(** The module's globals, as left by [module_init]. *)
Variable globals : module_globals.

(** [json.loads(s)] *)
Definition json_loads (s : option string) : M pyvalue :=
  match s with
  | None => raise (TypeError "the JSON object must be str, bytes or bytearray, not NoneType")
  | Some doc =>
      match decode doc with
      | Some v => mret v
      | None => raise (JSONDecodeError doc)
      end
  end.

Definition subtopics_config (user_question : string) : GenerateContentConfig :=
  {| system_instruction := subtopics_system_prompt user_question;
     response_mime_type := "application/json";
     temperature := 0.7;
     max_output_tokens := Some 500 |}.

Definition generate_subtopics (user_question : string) (retries delay : Z) : M pyvalue :=
  let config := subtopics_config user_question in
  r ← for_each (py_range 1 (retries + 1)) (λ attempt,
        r ← try_except
              (response ← generate_content (client globals) MODEL_ID user_question config;
               if truthy (text response)
               then (v ← json_loads (text response); mret (Some v))
               else (print (EmptyResponseOn attempt);; mret None))
              (λ e,
               if is_APIError e
               then (print (APIErrorOn attempt e);; mret None)
               else (print (UnexpectedErrorOn attempt e);; mret None));
        match r with
        | Some v => mret (Some v)
        | None =>
            (* Exponential backoff *)
            if bool_decide (attempt < retries)
            then
              (let wait_time := delay * 2 ^ (attempt - 1) in
               print (RetryingIn wait_time);;
               sleep wait_time;;
               mret None)
            else mret None
        end);
  match r with
  | Some v => mret v
  | None =>
      print (MaxRetriesReached "Could not generate subtopics.");;
      mret PyNone
  end.

Definition explanation_config (subtopic user_question : string) : GenerateContentConfig :=
  {| system_instruction := explanation_system_prompt subtopic user_question;
     response_mime_type := "application/json";
     temperature := 0.7;
     max_output_tokens := Some 1000 |}.

Definition generate_explanation_and_activity (subtopic user_question : string)
    (retries delay : Z) : M pyvalue :=
  let config := explanation_config subtopic user_question in
  r ← for_each (py_range 1 (retries + 1)) (λ attempt,
        r ← try_except
              (response ← generate_content (client globals) MODEL_ID subtopic config;
               v ← json_loads (text response);
               mret (Some v))
              (λ e, print (AttemptFailed attempt e);; mret None);
        match r with
        | Some v => mret (Some v)
        | None =>
            if bool_decide (attempt < retries)
            then
              (let wait_time := delay * 2 ^ (attempt - 1) in
               sleep wait_time;;
               mret None)
            else mret None
        end);
  match r with
  | Some v => mret v
  | None =>
      print (MaxRetriesReached "Could not get explanation.");;
      mret PyNone
  end.

Definition activity_config (topic explanation template_type : string)
    : GenerateContentConfig :=
  {| system_instruction := activity_system_prompt topic explanation template_type;
     response_mime_type := "application/json";
     temperature := 0.7;
     max_output_tokens := None |}.

Definition generate_interactive_activity (topic explanation template_type : string)
    (retries delay : Z) : M pyvalue :=
  let config := activity_config topic explanation template_type in
  r ← for_each (py_range 1 (retries + 1)) (λ attempt,
        r ← try_except
              (* Pass template_type as user content *)
              (response ← generate_content (client globals) MODEL_ID template_type config;
               v ← json_loads (text response);
               mret (Some v))
              (λ e, print (AttemptFailed attempt e);; mret None);
        match r with
        | Some v => mret (Some v)
        | None =>
            if bool_decide (attempt < retries)
            then
              (let wait_time := delay * 2 ^ (attempt - 1) in
               sleep wait_time;;
               mret None)
            else mret None
        end);
  match r with
  | Some v => mret v
  | None =>
      print (MaxRetriesReached "Could not generate activity.");;
      mret PyNone
  end.

End Stages.

(** ** A decoder for a fragment of JSON

    An instance for [decode], used to run the stages on concrete
    documents: objects, arrays, strings with the one-letter escapes,
    integers and the three literals, with JSON's whitespace.  On these it
    gives the value [json.loads] gives (a repeated key keeps its first
    position and its last value).  Numbers with a fraction or an exponent
    and [\u] escapes are outside the fragment. *)

Definition dq_char : ascii := Ascii.ascii_of_nat 34.

Definition is_ws (c : ascii) : bool :=
  (Ascii.eqb c " " || Ascii.eqb c (Ascii.ascii_of_nat 9)
   || Ascii.eqb c (Ascii.ascii_of_nat 10) || Ascii.eqb c (Ascii.ascii_of_nat 13))%bool.

Fixpoint skip_ws (s : string) : string :=
  match s with
  | String c rest => if is_ws c then skip_ws rest else s
  | EmptyString => s
  end.

Fixpoint strip_prefix (p s : string) : option string :=
  match p, s with
  | EmptyString, _ => Some s
  | String a p', String b s' => if Ascii.eqb a b then strip_prefix p' s' else None
  | String _ _, EmptyString => None
  end.

Definition digit_value (c : ascii) : option Z :=
  let n := Ascii.nat_of_ascii c in
  if bool_decide (48 ≤ n ≤ 57)%nat then Some (Z.of_nat n - 48) else None.

Fixpoint read_digits (s : string) (acc : Z) : Z * string :=
  match s with
  | String c rest =>
      match digit_value c with
      | Some d => read_digits rest (10 * acc + d)
      | None => (acc, s)
      end
  | EmptyString => (acc, s)
  end.

(** An optional minus sign, then 0 or a number without leading zero, not
    followed by a fraction or an exponent. *)
Definition read_int (s : string) : option (Z * string) :=
  let '(sign, s) :=
    match s with
    | String "-" rest => (-1, rest)
    | _ => (1, s)
    end in
  match s with
  | String c rest =>
      match digit_value c with
      | Some d =>
          let '(n, rest') := if bool_decide (d = 0) then (0, rest) else read_digits rest d in
          match rest' with
          | String "." _ | String "e" _ | String "E" _ => None
          | _ => Some (sign * n, rest')
          end
      | None => None
      end
  | EmptyString => None
  end.

Definition unescape (c : ascii) : option ascii :=
  if Ascii.eqb c dq_char then Some dq_char
  else if Ascii.eqb c "\" then Some "\"%char
  else if Ascii.eqb c "/" then Some "/"%char
  else if Ascii.eqb c "b" then Some (Ascii.ascii_of_nat 8)
  else if Ascii.eqb c "f" then Some (Ascii.ascii_of_nat 12)
  else if Ascii.eqb c "n" then Some (Ascii.ascii_of_nat 10)
  else if Ascii.eqb c "r" then Some (Ascii.ascii_of_nat 13)
  else if Ascii.eqb c "t" then Some (Ascii.ascii_of_nat 9)
  else None.

(** The rest of a string literal, after its opening quote. *)
Fixpoint read_chars (s : string) (acc : list ascii) : option (string * string) :=
  match s with
  | EmptyString => None
  | String c rest =>
      if Ascii.eqb c dq_char then Some (String.string_of_list_ascii (rev acc), rest)
      else if Ascii.eqb c "\" then
        match rest with
        | String e rest' =>
            match unescape e with
            | Some c' => read_chars rest' (c' :: acc)
            | None => None
            end
        | EmptyString => None
        end
      else if bool_decide (Ascii.nat_of_ascii c < 32)%nat then None
      else read_chars rest (c :: acc)
  end.

(** [d[k] = v] on a dict kept in insertion order. *)
Fixpoint dict_set (k : string) (v : pyvalue) (d : list (string * pyvalue))
    : list (string * pyvalue) :=
  match d with
  | [] => [(k, v)]
  | (k', v') :: d' => if String.eqb k k' then (k, v) :: d' else (k', v') :: dict_set k v d'
  end.

Fixpoint read_value (fuel : nat) (s : string) {struct fuel} : option (pyvalue * string) :=
  match fuel with
  | O => None
  | S fuel =>
      match skip_ws s with
      | EmptyString => None
      | String c rest as s' =>
          if Ascii.eqb c "[" then
            match skip_ws rest with
            | String "]" r => Some (PyList [], r)
            | _ => read_elements fuel rest []
            end
          else if Ascii.eqb c "{" then
            match skip_ws rest with
            | String "}" r => Some (PyDict [], r)
            | _ => read_members fuel rest []
            end
          else if Ascii.eqb c dq_char then
            match read_chars rest [] with
            | Some (str, r) => Some (PyStr str, r)
            | None => None
            end
          else
            match strip_prefix "null" s', strip_prefix "true" s', strip_prefix "false" s' with
            | Some r, _, _ => Some (PyNone, r)
            | _, Some r, _ => Some (PyBool true, r)
            | _, _, Some r => Some (PyBool false, r)
            | None, None, None =>
                match read_int s' with
                | Some (n, r) => Some (PyInt n, r)
                | None => None
                end
            end
      end
  end
with read_elements (fuel : nat) (s : string) (acc : list pyvalue) {struct fuel}
    : option (pyvalue * string) :=
  match fuel with
  | O => None
  | S fuel =>
      match read_value fuel s with
      | Some (v, r) =>
          match skip_ws r with
          | String "," r' => read_elements fuel r' (v :: acc)
          | String "]" r' => Some (PyList (rev (v :: acc)), r')
          | _ => None
          end
      | None => None
      end
  end
with read_members (fuel : nat) (s : string) (acc : list (string * pyvalue)) {struct fuel}
    : option (pyvalue * string) :=
  match fuel with
  | O => None
  | S fuel =>
      match skip_ws s with
      | String c r =>
          if Ascii.eqb c dq_char then
            match read_chars r [] with
            | Some (k, r1) =>
                match skip_ws r1 with
                | String ":" r2 =>
                    match read_value fuel r2 with
                    | Some (v, r3) =>
                        match skip_ws r3 with
                        | String "," r4 => read_members fuel r4 (dict_set k v acc)
                        | String "}" r4 => Some (PyDict (dict_set k v acc), r4)
                        | _ => None
                        end
                    | None => None
                    end
                | _ => None
                end
            | None => None
            end
          else None
      | EmptyString => None
      end
  end.

Definition decode_fragment (doc : string) : option pyvalue :=
  match read_value (2 * String.length doc + 2) doc with
  | Some (v, rest) =>
      match skip_ws rest with
      | EmptyString => Some v
      | String _ _ => None
      end
  | None => None
  end.

(** A quoted JSON string, for writing documents down. *)
Definition q (s : string) : string := dq +:+ s +:+ dq.

(** ** Stages as data, and what a run leaves in the trace *)

Inductive stage : Type :=
| Subtopics (user_question : string)
| Explanation (subtopic user_question : string)
| Activity (topic explanation template_type : string).

Definition run_stage (decode : string → option pyvalue) (globals : module_globals)
    (s : stage) (retries delay : Z) : M pyvalue :=
  match s with
  | Subtopics user_question =>
      generate_subtopics decode globals user_question retries delay
  | Explanation subtopic user_question =>
      generate_explanation_and_activity decode globals subtopic user_question retries delay
  | Activity topic explanation template_type =>
      generate_interactive_activity decode globals topic explanation template_type retries delay
  end.

(** The request a stage sends, the same at every attempt. *)
Definition stage_request (s : stage) : request :=
  match s with
  | Subtopics user_question =>
      {| model := MODEL_ID; contents := user_question;
         config := subtopics_config user_question |}
  | Explanation subtopic user_question =>
      {| model := MODEL_ID; contents := subtopic;
         config := explanation_config subtopic user_question |}
  | Activity topic explanation template_type =>
      {| model := MODEL_ID; contents := template_type;
         config := activity_config topic explanation template_type |}
  end.

(** What the [try] block of a stage makes of one answer of the service:
    [Some v] when it returns [v], [None] when the attempt is over without a
    result.  Only stage 1 looks at the text before decoding it. *)
Definition attempt_value (decode : string → option pyvalue) (s : stage)
    (o : call_outcome) : option pyvalue :=
  match o with
  | Raises _ => None
  | Returns response =>
      match s with
      | Subtopics _ =>
          if truthy (text response) then text response ≫= decode else None
      | _ => text response ≫= decode
      end
  end.

(** The ways an attempt fails. *)
Inductive failure (decode : string → option pyvalue) : call_outcome → Prop :=
| transport_error e : failure decode (Raises e)
| no_text : failure decode (Returns {| text := None |})
| empty_body : failure decode (Returns {| text := Some EmptyString |})
| malformed doc : decode doc = None → failure decode (Returns {| text := Some doc |}).

Definition fresh (clk : Z → option exn) (srv : nat → Client → request → call_outcome)
    : world :=
  {| service := srv; clock := clk; trace := [] |}.

Definition calls (tr : list event) : list (Client * request) :=
  omap (λ e, match e with Call c req => Some (c, req) | _ => None end) tr.

Definition sleeps (tr : list event) : list Z :=
  omap (λ e, match e with Sleep secs => Some secs | _ => None end) tr.

(** The trace without the console output. *)
Definition schedule (tr : list event) : list event :=
  omap (λ e, match e with Print _ => None | _ => Some e end) tr.

(** [m] attempts numbered from [k], with the backoff sleep between two
    consecutive ones and none after the last. *)
Fixpoint timeline (c : Client) (req : request) (delay : Z) (k : Z) (m : nat) : list event :=
  match m with
  | O => []
  | S m' =>
      Call c req ::
      match m' with
      | O => []
      | S _ => Sleep (delay * 2 ^ (k - 1)) :: timeline c req delay (k + 1) m'
      end
  end.

(** ** The shapes the specification gives to the decoded values

    These follow the specification's data model; the module itself has no
    such checks. *)

Fixpoint dict_get (k : string) (d : list (string * pyvalue)) : option pyvalue :=
  match d with
  | [] => None
  | (k', v) :: d' => if String.eqb k k' then Some v else dict_get k d'
  end.

Definition is_str (v : pyvalue) : bool :=
  match v with PyStr _ => true | _ => false end.

Definition str_in (s : string) (l : list string) : bool :=
  existsb (String.eqb s) l.

Definition depth_levels : list string := ["Introductory"; "Intermediate"; "Advanced"].
Definition question_types : list string :=
  ["Factual"; "Conceptual"; "Procedural"; "Opinion"; "Open-Ended"].

Definition is_SubtopicPlan (v : pyvalue) : bool :=
  match v with
  | PyDict d =>
      match dict_get "subject_area" d, dict_get "depth_level" d,
            dict_get "question_type" d, dict_get "curiosity_tree" d with
      | Some (PyStr _), Some (PyStr depth), Some (PyStr kind), Some (PyList tree) =>
          str_in depth depth_levels && str_in kind question_types
          && bool_decide (3 ≤ length tree ≤ 5)%nat && forallb is_str tree
      | _, _, _, _ => false
      end
  | _ => false
  end.

Definition has_str_field (k : string) (v : pyvalue) : bool :=
  match v with
  | PyDict d => match dict_get k d with Some (PyStr _) => true | _ => false end
  | _ => false
  end.

Definition str_field_is (k s : string) (v : pyvalue) : bool :=
  match v with
  | PyDict d => match dict_get k d with Some (PyStr s') => String.eqb s s' | _ => false end
  | _ => false
  end.

(** match_pairs: a [pairs] sequence of {prompt, match}. *)
Definition valid_match_pairs (v : pyvalue) : bool :=
  match v with
  | PyDict d =>
      match dict_get "pairs" d with
      | Some (PyList pairs) =>
          forallb (λ p, has_str_field "prompt" p && has_str_field "match" p) pairs
      | _ => false
      end
  | _ => false
  end.

(** fill_blanks: every key of [answers] is a key of [blanks], and
    [answers[k]] is one of the candidates [blanks[k]]. *)
Definition valid_fill_blanks (v : pyvalue) : bool :=
  match v with
  | PyDict d =>
      match dict_get "blanks" d, dict_get "answers" d with
      | Some (PyDict blanks), Some (PyDict answers) =>
          forallb (λ '(k, answer),
                   match answer, dict_get k blanks with
                   | PyStr a, Some (PyList candidates) =>
                       existsb (λ c, match c with PyStr s => String.eqb a s | _ => false end)
                               candidates
                   | _, _ => false
                   end) answers
      | _, _ => false
      end
  | _ => false
  end.

(** drag_drop: every [correctElementId] is the [id] of a draggable element. *)
Definition valid_drag_drop (v : pyvalue) : bool :=
  match v with
  | PyDict d =>
      match dict_get "draggableElements" d, dict_get "droppableBlanks" d with
      | Some (PyList elements), Some (PyList blanks) =>
          forallb (λ b,
                   match b with
                   | PyDict bd =>
                       match dict_get "correctElementId" bd with
                       | Some (PyStr i) => existsb (str_field_is "id" i) elements
                       | _ => false
                       end
                   | _ => false
                   end) blanks
      | _, _ => false
      end
  | _ => false
  end.

(** ** Four sentences of the specification, as they are written *)


(** When all the attempts of a stage fail, the sleeps are
    [delay * 2^(k-1)] for [k] from 1 to [retries - 1], for every budget and
    every delay. *)
Definition backoff_for_every_delay : Prop :=
  ∀ decode globals s retries delay clk srv,
    decode EmptyString = None →
    (∀ i, (i < Z.to_nat retries)%nat →
          failure decode (srv i (client globals) (stage_request s))) →
    sleeps (trace (run_stage decode globals s retries delay (fresh clk srv)).2)
    = (λ k, delay * 2 ^ (k - 1)) <$> py_range 1 retries.


(** Initialisation raises when the key is absent from the environment, and
    goes through when it is present. *)
Definition init_raises_iff_absent : Prop :=
  ∀ dotenv environ,
    let key := getenv (load_dotenv dotenv environ) "GEMINI_API_KEY" in
    (key = None → ∃ e, module_init dotenv environ = Raise e)
    ∧ (is_Some key → ∃ globals, module_init dotenv environ = Ok globals).

(** ** Services and globals to run the stages on *)

Definition test_globals : module_globals :=
  {| GEMINI_API_KEY := Some "test-key"; client := {| api_key := Some "test-key" |} |}.

(** The service that gives the same answer to every call. *)
Definition always (o : call_outcome) : nat → Client → request → call_outcome :=
  λ _ _ _, o.

(** The service that answers the first calls from a script, then [rest]. *)
Definition scripted (script : list call_outcome) (rest : call_outcome)
    : nat → Client → request → call_outcome :=
  λ i _ _, nth i script rest.

Definition body_of (doc : string) : call_outcome := Returns {| text := Some doc |}.

(** A platform that sleeps whatever length it is left with, and one that
    refuses them all. *)
Definition lenient_clock : Z → option exn := λ _, None.
Definition strict_clock : Z → option exn := λ _, Some (OSError 22 "Invalid argument").

(** Three bodies that are JSON but not what the prompt asked for: a
    match_pairs activity without its [pairs], a fill_blanks activity
    whose answer is no candidate, and a drag_drop activity whose blank
    refers to no element. *)
Definition pairs_missing_doc : string :=
  "{" +:+ q "id" +:+ ": " +:+ q "photosynthesis-basics" +:+ ", "
      +:+ q "type" +:+ ": " +:+ q "match" +:+ ", "
      +:+ q "title" +:+ ": " +:+ q "Key Concepts in Photosynthesis" +:+ ", "
      +:+ q "description" +:+ ": " +:+ q "Match each term with its definition." +:+ "}".

Definition wrong_answer_doc : string :=
  "{" +:+ q "id" +:+ ": " +:+ q "skin" +:+ ", "
      +:+ q "type" +:+ ": " +:+ q "fill_in_blanks" +:+ ", "
      +:+ q "text" +:+ ": " +:+ q "Skin colour comes from ___" +:+ ", "
      +:+ q "blanks" +:+ ": {" +:+ q "1" +:+ ": [" +:+ q "Melanin" +:+ ", " +:+ q "Keratin" +:+ "]}, "
      +:+ q "answers" +:+ ": {" +:+ q "1" +:+ ": " +:+ q "Chlorophyll" +:+ "}}".

Definition dangling_element_doc : string :=
  "{" +:+ q "id" +:+ ": " +:+ q "sky" +:+ ", "
      +:+ q "type" +:+ ": " +:+ q "drag_drop" +:+ ", "
      +:+ q "draggableElements" +:+ ": [{" +:+ q "id" +:+ ": " +:+ q "id1" +:+ ", "
      +:+ q "label" +:+ ": " +:+ q "Scattering" +:+ "}], "
      +:+ q "droppableBlanks" +:+ ": [{" +:+ q "id" +:+ ": " +:+ q "drop-1" +:+ ", "
      +:+ q "label" +:+ ": " +:+ q "Why the sky is blue" +:+ ", "
      +:+ q "correctElementId" +:+ ": " +:+ q "id9" +:+ "}]}".

(** A body that is JSON but no SubtopicPlan: the depth level is not one of
    the three and the tree has a single subtopic. *)
Definition short_plan_doc : string :=
  "{" +:+ q "subject_area" +:+ ": " +:+ q "Physics" +:+ ", "
      +:+ q "depth_level" +:+ ": " +:+ q "Expert" +:+ ", "
      +:+ q "question_type" +:+ ": " +:+ q "Conceptual" +:+ ", "
      +:+ q "curiosity_tree" +:+ ": [" +:+ q "Rayleigh scattering" +:+ "]}".

(** ** The retry loop, once for the three stages

    The three loops differ in their [try] block and in whether the wait is
    announced; [retry_body] is their common form. *)

Definition checked_attempt (decode : string → option pyvalue) (c : Client)
    (model contents : string) (config : GenerateContentConfig) (attempt : Z)
    : M (option pyvalue) :=
  try_except
    (response ← generate_content c model contents config;
     if truthy (text response)
     then (v ← json_loads decode (text response); mret (Some v))
     else (print (EmptyResponseOn attempt);; mret None))
    (λ e,
     if is_APIError e
     then (print (APIErrorOn attempt e);; mret None)
     else (print (UnexpectedErrorOn attempt e);; mret None)).

Definition plain_attempt (decode : string → option pyvalue) (c : Client)
    (model contents : string) (config : GenerateContentConfig) (attempt : Z)
    : M (option pyvalue) :=
  try_except
    (response ← generate_content c model contents config;
     v ← json_loads decode (text response);
     mret (Some v))
    (λ e, print (AttemptFailed attempt e);; mret None).

Definition retry_body (att : Z → M (option pyvalue)) (pre : Z → M unit)
    (retries delay : Z) (attempt : Z) : M (option pyvalue) :=
  r ← att attempt;
  match r with
  | Some v => mret (Some v)
  | None =>
      if bool_decide (attempt < retries)
      then (pre attempt;; sleep (delay * 2 ^ (attempt - 1));; mret None)
      else mret None
  end.

Definition retry (att : Z → M (option pyvalue)) (pre : Z → M unit)
    (retries delay : Z) (what : string) : M pyvalue :=
  r ← for_each (py_range 1 (retries + 1)) (retry_body att pre retries delay);
  match r with
  | Some v => mret v
  | None => print (MaxRetriesReached what);; mret PyNone
  end.

Definition stage_attempt (decode : string → option pyvalue) (globals : module_globals)
    (s : stage) : Z → M (option pyvalue) :=
  let req := stage_request s in
  match s with
  | Subtopics _ => checked_attempt decode (client globals) (model req) (contents req) (config req)
  | _ => plain_attempt decode (client globals) (model req) (contents req) (config req)
  end.

Definition stage_announce (s : stage) (delay : Z) (attempt : Z) : M unit :=
  match s with
  | Subtopics _ => print (RetryingIn (delay * 2 ^ (attempt - 1)))
  | _ => mret ()
  end.

Definition stage_farewell (s : stage) : string :=
  match s with
  | Subtopics _ => "Could not generate subtopics."
  | Explanation _ _ => "Could not get explanation."
  | Activity _ _ _ => "Could not generate activity."
  end.

(** [attempts k n] are the attempt numbers [k], [k+1], ..., [k+n-1]. *)
Definition attempts (k : Z) (n : nat) : list Z :=
  (λ i : nat, k + Z.of_nat i) <$> seq 0 n.

(** [steps n evs w w']: from [w] to [w'] the service was called [n] times
    and, console output apart, [evs] happened. *)
Definition steps (n : nat) (evs : list event) (w w' : world) : Prop :=
  (∀ i c r, service w' i c r = service w (n + i)%nat c r)
  ∧ clock w' = clock w
  ∧ schedule (trace w') = schedule (trace w) ++ evs.

(** [time.sleep] accepts the first [m] waits of the backoff:
    [delay], [2 * delay], ..., [2^(m-1) * delay]. *)
Definition waits_accepted (clk : Z → option exn) (delay : Z) (m : nat) : Prop :=
  ∀ j, (j < m)%nat → sleep_refusal clk (delay * 2 ^ Z.of_nat j) = None.

(** * Proofs *)

Lemma run_stage_retry decode globals s retries delay :
  run_stage decode globals s retries delay
  = retry (stage_attempt decode globals s) (stage_announce s delay) retries delay
          (stage_farewell s).
Proof. destruct s; reflexivity. Qed.

(** ** The monad *)

Lemma bind_ok {A B} (m : M A) (f : A → M B) w a w' :
  m w = (Ok a, w') → (m ≫= f) w = f a w'.
Proof. intros E. unfold mbind, M_bind. by rewrite E. Qed.

Lemma bind_raise {A B} (m : M A) (f : A → M B) w e w' :
  m w = (Raise e, w') → (m ≫= f) w = (Raise e, w').
Proof. intros E. unfold mbind, M_bind. by rewrite E. Qed.

(** ** Traces *)

Lemma schedule_app tr1 tr2 : schedule (tr1 ++ tr2) = schedule tr1 ++ schedule tr2.
Proof. apply omap_app. Qed.

Lemma calls_app tr1 tr2 : calls (tr1 ++ tr2) = calls tr1 ++ calls tr2.
Proof. apply omap_app. Qed.

Lemma sleeps_app tr1 tr2 : sleeps (tr1 ++ tr2) = sleeps tr1 ++ sleeps tr2.
Proof. apply omap_app. Qed.

Lemma calls_schedule tr : calls (schedule tr) = calls tr.
Proof.
  induction tr as [|e tr IH]; [done|].
  destruct e; cbn; first [exact IH | f_equal; exact IH].
Qed.

Lemma sleeps_schedule tr : sleeps (schedule tr) = sleeps tr.
Proof.
  induction tr as [|e tr IH]; [done|].
  destruct e; cbn; first [exact IH | f_equal; exact IH].
Qed.

Lemma calls_timeline c req delay k m :
  calls (timeline c req delay k m) = replicate m (c, req).
Proof.
  revert k. induction m as [|m IH]; intros k; [done|].
  destruct m as [|m]; [done|].
  change (calls (timeline c req delay k (S (S m))))
    with ((c, req) :: calls (timeline c req delay (k + 1) (S m))).
  by rewrite IH.
Qed.

Lemma sleeps_timeline c req delay k m :
  sleeps (timeline c req delay k m) = (λ j, delay * 2 ^ (j - 1)) <$> attempts k (pred m).
Proof.
  revert k. induction m as [|m IH]; intros k; [done|].
  destruct m as [|m]; [done|].
  change (sleeps (timeline c req delay k (S (S m))))
    with (delay * 2 ^ (k - 1) :: sleeps (timeline c req delay (k + 1) (S m))).
  rewrite IH. unfold attempts. cbn [pred seq fmap list_fmap].
  f_equal; [f_equal; f_equal; lia|].
  rewrite <- (fmap_S_seq 0), <- !list_fmap_compose.
  apply list_fmap_ext. intros _ i _. cbn. f_equal. f_equal. lia.
Qed.

Lemma steps_refl w : steps 0 [] w w.
Proof. split; [done|]. split; [done|]. by rewrite app_nil_r. Qed.

Lemma steps_trans n1 n2 evs1 evs2 w1 w2 w3 :
  steps n1 evs1 w1 w2 → steps n2 evs2 w2 w3 → steps (n1 + n2) (evs1 ++ evs2) w1 w3.
Proof.
  intros (S1 & C1 & T1) (S2 & C2 & T2). split; [|split].
  - intros i c r. rewrite S2, S1. f_equal. lia.
  - by rewrite C2.
  - by rewrite T2, T1, app_assoc.
Qed.

Lemma steps_fresh n evs clk srv w :
  steps n evs (fresh clk srv) w →
  schedule (trace w) = evs ∧ calls (trace w) = calls evs ∧ sleeps (trace w) = sleeps evs.
Proof.
  intros (_ & _ & T). cbn in T.
  by rewrite <- (calls_schedule (trace w)), <- (sleeps_schedule (trace w)), T.
Qed.

(** ** Effects one at a time *)

Lemma print_steps m w : ∃ w', print m w = (Ok (), w') ∧ steps 0 [] w w'.
Proof.
  eexists. split; [reflexivity|]. split; [done|]. split; [done|].
  cbn. by rewrite schedule_app.
Qed.

Lemma sleep_steps secs w :
  sleep_refusal (clock w) secs = None →
  ∃ w', sleep secs w = (Ok (), w') ∧ steps 0 [Sleep secs] w w'.
Proof.
  intros H. unfold sleep. rewrite H.
  eexists. split; [reflexivity|]. split; [done|]. split; [done|].
  cbn. by rewrite schedule_app.
Qed.

Lemma sleep_refused secs w e :
  sleep_refusal (clock w) secs = Some e → sleep secs w = (Raise e, w).
Proof. intros H. unfold sleep. by rewrite H. Qed.

(** What [time.sleep] does of a length, by its size. *)
Lemma sleep_refusal_sure clk secs :
  0 ≤ secs ≤ sleep_sure → sleep_refusal clk secs = None.
Proof.
  intros H. unfold sleep_refusal, sleep_max, sleep_sure in *.
  rewrite bool_decide_eq_false_2 by lia. rewrite bool_decide_eq_false_2 by lia.
  by rewrite bool_decide_eq_true_2 by lia.
Qed.



Lemma sleep_refusal_None clk secs :
  sleep_refusal clk secs = None → 0 ≤ secs ≤ sleep_max.
Proof.
  unfold sleep_refusal. repeat case_bool_decide; try done; lia.
Qed.

Lemma waits_accepted_sure clk delay m :
  0 ≤ delay → delay * 2 ^ Z.of_nat (pred m) ≤ sleep_sure → waits_accepted clk delay m.
Proof.
  intros Hd Hm j Hj. apply sleep_refusal_sure. split.
  - apply Z.mul_nonneg_nonneg; [done|]. apply Z.pow_nonneg. lia.
  - etrans; [|exact Hm]. apply Z.mul_le_mono_nonneg_l; [done|].
    apply Z.pow_le_mono_r; lia.
Qed.

Lemma waits_accepted_le clk delay m m' :
  (m' ≤ m)%nat → waits_accepted clk delay m → waits_accepted clk delay m'.
Proof. intros Hle H j Hj. apply H. lia. Qed.

Lemma generate_content_steps c model contents config w :
  let req := {| model := model; contents := contents; config := config |} in
  ∃ w', steps 1 [Call c req] w w' ∧
    generate_content c model contents config w
    = (match service w 0%nat c req with Returns r => Ok r | Raises e => Raise e end, w').
Proof.
  intros req. unfold generate_content. fold req.
  eexists. split; [|by destruct (service w 0%nat c req)].
  split; [done|]. split; [done|]. cbn. by rewrite schedule_app.
Qed.

Lemma steps_print n evs w w1 m :
  steps n evs w w1 →
  steps n evs w {| service := service w1; clock := clock w1; trace := trace w1 ++ [Print m] |}.
Proof.
  intros (S1 & C1 & T1). split; [done|]. split; [done|].
  cbn. by rewrite schedule_app, T1, app_nil_r.
Qed.

(** ** One attempt *)

Lemma checked_attempt_steps decode c model contents config a w :
  let req := {| model := model; contents := contents; config := config |} in
  ∃ w', checked_attempt decode c model contents config a w
        = (Ok (match service w 0%nat c req with
               | Raises _ => None
               | Returns r => if truthy (text r) then text r ≫= decode else None
               end), w')
        ∧ steps 1 [Call c req] w w'.
Proof.
  intros req.
  destruct (generate_content_steps c model contents config w) as (w1 & Hs & Hg).
  fold req in Hs, Hg.
  unfold checked_attempt, try_except, mbind at 1, M_bind at 1. rewrite Hg.
  destruct (service w 0%nat c req) as [[t]|e].
  - cbn [text]. destruct (truthy t) eqn:Ht.
    + destruct t as [doc|]; [|done]. cbn [json_loads mbind option_bind].
      unfold mbind, M_bind, mret, M_ret, raise, print, emit.
      destruct (decode doc); cbn; eauto using steps_print.
    + unfold print, emit, mbind, M_bind, mret, M_ret. cbn. eauto using steps_print.
  - unfold print, emit, mbind, M_bind, mret, M_ret.
    destruct (is_APIError e); cbn; eauto using steps_print.
Qed.

Lemma plain_attempt_steps decode c model contents config a w :
  let req := {| model := model; contents := contents; config := config |} in
  ∃ w', plain_attempt decode c model contents config a w
        = (Ok (match service w 0%nat c req with
               | Raises _ => None
               | Returns r => text r ≫= decode
               end), w')
        ∧ steps 1 [Call c req] w w'.
Proof.
  intros req.
  destruct (generate_content_steps c model contents config w) as (w1 & Hs & Hg).
  fold req in Hs, Hg.
  unfold plain_attempt, try_except, mbind at 1, M_bind at 1. rewrite Hg.
  destruct (service w 0%nat c req) as [[t]|e].
  - cbn [text]. destruct t as [doc|]; cbn [json_loads mbind option_bind].
    + unfold mbind, M_bind, mret, M_ret, raise, print, emit.
      destruct (decode doc); cbn; eauto using steps_print.
    + unfold mbind, M_bind, mret, M_ret, raise, print, emit. cbn. eauto using steps_print.
  - unfold print, emit, mbind, M_bind, mret, M_ret. cbn. eauto using steps_print.
Qed.

Lemma stage_attempt_steps decode globals s a w :
  ∃ w', stage_attempt decode globals s a w
        = (Ok (attempt_value decode s (service w 0%nat (client globals) (stage_request s))), w')
        ∧ steps 1 [Call (client globals) (stage_request s)] w w'.
Proof.
  destruct s.
  - apply (checked_attempt_steps decode (client globals) _ _ _ a w).
  - apply (plain_attempt_steps decode (client globals) _ _ _ a w).
  - apply (plain_attempt_steps decode (client globals) _ _ _ a w).
Qed.

Lemma stage_announce_steps s delay a w :
  ∃ w', stage_announce s delay a w = (Ok (), w') ∧ steps 0 [] w w'.
Proof.
  destruct s; [apply print_steps| |]; (eexists; split; [reflexivity|apply steps_refl]).
Qed.

(** ** The loop *)

Lemma attempts_S k n : attempts k (S n) = k :: attempts (k + 1) n.
Proof.
  unfold attempts. cbn [seq fmap list_fmap]. f_equal; [lia|].
  rewrite <- (fmap_S_seq 0), <- list_fmap_compose.
  apply list_fmap_ext. intros _ i _. cbn. lia.
Qed.

Lemma py_range_attempts retries : py_range 1 (retries + 1) = attempts 1 (Z.to_nat retries).
Proof. unfold py_range, attempts. do 3 f_equal. lia. Qed.

Section Retry.

Context (c : Client) (req : request) (ok : call_outcome → option pyvalue).
Context (att : Z → M (option pyvalue)) (pre : Z → M unit).
Context (retries delay : Z) (what : string).

Hypothesis att_steps : ∀ a w,
  ∃ w', att a w = (Ok (ok (service w 0%nat c req)), w') ∧ steps 1 [Call c req] w w'.
Hypothesis pre_steps : ∀ a w, ∃ w', pre a w = (Ok (), w') ∧ steps 0 [] w w'.

Local Abbreviation body := (retry_body att pre retries delay).
Local Abbreviation outcome_at w i := (service w i c req).
Local Abbreviation refusal w a := (sleep_refusal (clock w) (delay * 2 ^ (a - 1))).

Lemma body_returns a w v :
  ok (outcome_at w 0%nat) = Some v →
  ∃ w', body a w = (Ok (Some v), w') ∧ steps 1 [Call c req] w w'.
Proof.
  intros E. destruct (att_steps a w) as (w1 & Ha & Hs). rewrite E in Ha.
  unfold retry_body. rewrite (bind_ok _ _ _ _ _ Ha). eauto.
Qed.

Lemma body_last a w :
  ok (outcome_at w 0%nat) = None → retries ≤ a →
  ∃ w', body a w = (Ok None, w') ∧ steps 1 [Call c req] w w'.
Proof.
  intros E Ha'. destruct (att_steps a w) as (w1 & Ha & Hs). rewrite E in Ha.
  unfold retry_body. rewrite (bind_ok _ _ _ _ _ Ha).
  rewrite bool_decide_eq_false_2 by lia. eauto.
Qed.

Lemma body_backoff a w :
  ok (outcome_at w 0%nat) = None → a < retries → refusal w a = None →
  ∃ w', body a w = (Ok None, w')
        ∧ steps 1 [Call c req; Sleep (delay * 2 ^ (a - 1))] w w'.
Proof.
  intros E Ha' Hz. destruct (att_steps a w) as (w1 & Ha & Hs). rewrite E in Ha.
  unfold retry_body. rewrite (bind_ok _ _ _ _ _ Ha).
  rewrite bool_decide_eq_true_2 by lia.
  destruct (pre_steps a w1) as (w2 & Hp & Hs2). rewrite (bind_ok _ _ _ _ _ Hp).
  destruct (sleep_steps (delay * 2 ^ (a - 1)) w2) as (w3 & Hz3 & Hs3).
  { destruct Hs2 as (_ & -> & _). destruct Hs as (_ & -> & _). exact Hz. }
  rewrite (bind_ok _ _ _ _ _ Hz3).
  eexists. split; [reflexivity|].
  exact (steps_trans _ _ _ _ _ _ _ (steps_trans _ _ _ _ _ _ _ Hs Hs2) Hs3).
Qed.

Lemma body_interrupted a w e :
  ok (outcome_at w 0%nat) = None → a < retries → refusal w a = Some e →
  ∃ w', body a w = (Raise e, w') ∧ steps 1 [Call c req] w w'.
Proof.
  intros E Ha' Hz. destruct (att_steps a w) as (w1 & Ha & Hs). rewrite E in Ha.
  unfold retry_body. rewrite (bind_ok _ _ _ _ _ Ha).
  rewrite bool_decide_eq_true_2 by lia.
  destruct (pre_steps a w1) as (w2 & Hp & Hs2). rewrite (bind_ok _ _ _ _ _ Hp).
  assert (sleep_refusal (clock w2) (delay * 2 ^ (a - 1)) = Some e) as Hz2.
  { destruct Hs2 as (_ & -> & _). destruct Hs as (_ & -> & _). exact Hz. }
  rewrite (bind_raise _ _ _ _ _ (sleep_refused _ w2 e Hz2)).
  eexists. split; [reflexivity|].
  exact (steps_trans _ _ _ _ _ _ _ Hs Hs2).
Qed.

Lemma loop_all_fail n : ∀ a w,
  (n ≠ O → a + Z.of_nat n = retries + 1) →
  (∀ j, (S j < n)%nat → refusal w (a + Z.of_nat j) = None) →
  (∀ i, (i < n)%nat → ok (outcome_at w i) = None) →
  ∃ w', for_each (attempts a n) body w = (Ok None, w')
        ∧ steps n (timeline c req delay a n) w w'.
Proof.
  induction n as [|n IH]; intros a w Hn Hz Hfail.
  { eexists. split; [reflexivity|apply steps_refl]. }
  rewrite attempts_S. cbn [for_each].
  destruct n as [|n].
  - destruct (body_last a w) as (w1 & Hb & Hs); [apply Hfail; lia|lia|].
    rewrite (bind_ok _ _ _ _ _ Hb). eauto.
  - destruct (body_backoff a w) as (w1 & Hb & Hs); [apply Hfail; lia|lia| |].
    { specialize (Hz O ltac:(lia)). by rewrite Z.add_0_r in Hz. }
    rewrite (bind_ok _ _ _ _ _ Hb).
    destruct (IH (a + 1) w1) as (w2 & Hl & Hs2); [lia| | |].
    { intros j Hj. destruct Hs as (_ & -> & _).
      specialize (Hz (S j) ltac:(lia)).
      by replace (a + 1 + Z.of_nat j) with (a + Z.of_nat (S j)) by lia. }
    { intros i Hi. destruct Hs as (-> & _). apply Hfail. lia. }
    rewrite Hl. eexists. split; [reflexivity|].
    exact (steps_trans _ _ _ _ _ _ _ Hs Hs2).
Qed.

Lemma loop_first_success k : ∀ n a w v,
  (k < n)%nat → a + Z.of_nat n = retries + 1 →
  (∀ j, (j < k)%nat → refusal w (a + Z.of_nat j) = None) →
  (∀ i, (i < k)%nat → ok (outcome_at w i) = None) →
  ok (outcome_at w k) = Some v →
  ∃ w', for_each (attempts a n) body w = (Ok (Some v), w')
        ∧ steps (S k) (timeline c req delay a (S k)) w w'.
Proof.
  induction k as [|k IH]; intros n a w v Hk Hn Hz Hfail Hok.
  - destruct n as [|n]; [lia|]. rewrite attempts_S. cbn [for_each].
    destruct (body_returns a w v) as (w1 & Hb & Hs); [done|].
    rewrite (bind_ok _ _ _ _ _ Hb). eauto.
  - destruct n as [|n]; [lia|]. rewrite attempts_S. cbn [for_each].
    destruct (body_backoff a w) as (w1 & Hb & Hs); [apply Hfail; lia|lia| |].
    { specialize (Hz O ltac:(lia)). by rewrite Z.add_0_r in Hz. }
    rewrite (bind_ok _ _ _ _ _ Hb).
    destruct (IH n (a + 1) w1 v) as (w2 & Hl & Hs2); [lia|lia| | | |].
    { intros j Hj. destruct Hs as (_ & -> & _).
      specialize (Hz (S j) ltac:(lia)).
      by replace (a + 1 + Z.of_nat j) with (a + Z.of_nat (S j)) by lia. }
    { intros i Hi. destruct Hs as (-> & _). apply Hfail. lia. }
    { destruct Hs as (-> & _). exact Hok. }
    rewrite Hl. eexists. split; [reflexivity|].
    exact (steps_trans _ _ _ _ _ _ _ Hs Hs2).
Qed.

Lemma loop_interrupted k : ∀ n a w e,
  (S k < n)%nat → a + Z.of_nat n = retries + 1 →
  (∀ j, (j < k)%nat → refusal w (a + Z.of_nat j) = None) →
  refusal w (a + Z.of_nat k) = Some e →
  (∀ i, (i ≤ k)%nat → ok (outcome_at w i) = None) →
  ∃ w', for_each (attempts a n) body w = (Raise e, w')
        ∧ steps (S k) (timeline c req delay a (S k)) w w'.
Proof.
  induction k as [|k IH]; intros n a w e Hk Hn Hz He Hfail.
  - destruct n as [|n]; [lia|]. rewrite attempts_S. cbn [for_each].
    destruct (body_interrupted a w e) as (w1 & Hb & Hs); [apply Hfail; lia|lia| |].
    { by rewrite Z.add_0_r in He. }
    rewrite (bind_raise _ _ _ _ _ Hb). eauto.
  - destruct n as [|n]; [lia|]. rewrite attempts_S. cbn [for_each].
    destruct (body_backoff a w) as (w1 & Hb & Hs); [apply Hfail; lia|lia| |].
    { specialize (Hz O ltac:(lia)). by rewrite Z.add_0_r in Hz. }
    rewrite (bind_ok _ _ _ _ _ Hb).
    destruct (IH n (a + 1) w1 e) as (w2 & Hl & Hs2); [lia|lia| | | |].
    { intros j Hj. destruct Hs as (_ & -> & _).
      specialize (Hz (S j) ltac:(lia)).
      by replace (a + 1 + Z.of_nat j) with (a + Z.of_nat (S j)) by lia. }
    { destruct Hs as (_ & -> & _).
      by replace (a + 1 + Z.of_nat k) with (a + Z.of_nat (S k)) by lia. }
    { intros i Hi. destruct Hs as (-> & _). apply Hfail. lia. }
    rewrite Hl. eexists. split; [reflexivity|].
    exact (steps_trans _ _ _ _ _ _ _ Hs Hs2).
Qed.

Lemma loop_shape n : ∀ a w,
  (n ≠ O → a + Z.of_nat n = retries + 1) →
  ∃ r w' m, for_each (attempts a n) body w = (r, w')
            ∧ (m ≤ n)%nat ∧ (n ≠ O → m ≠ O)
            ∧ steps m (timeline c req delay a m) w w'.
Proof.
  induction n as [|n IH]; intros a w Hn.
  { exists (Ok None), w, O. split; [reflexivity|]. split; [lia|]. split; [done|apply steps_refl]. }
  rewrite attempts_S. cbn [for_each].
  destruct (ok (outcome_at w 0%nat)) as [v|] eqn:E.
  { destruct (body_returns a w v) as (w1 & Hb & Hs); [done|].
    rewrite (bind_ok _ _ _ _ _ Hb).
    exists (Ok (Some v)), w1, 1%nat. split; [reflexivity|]. split; [lia|]. by split. }
  destruct n as [|n].
  { destruct (body_last a w) as (w1 & Hb & Hs); [done|lia|].
    rewrite (bind_ok _ _ _ _ _ Hb).
    exists (Ok None), w1, 1%nat. split; [reflexivity|]. split; [lia|]. by split. }
  destruct (refusal w a) as [e|] eqn:Hz.
  { destruct (body_interrupted a w e) as (w1 & Hb & Hs); [done|lia|done|].
    rewrite (bind_raise _ _ _ _ _ Hb).
    eexists _, w1, 1%nat. split; [reflexivity|]. split; [lia|]. by split. }
  destruct (body_backoff a w) as (w1 & Hb & Hs); [done|lia|done|].
  rewrite (bind_ok _ _ _ _ _ Hb).
  destruct (IH (a + 1) w1) as (r & w2 & m & Hl & Hm & Hm0 & Hs2); [lia|].
  rewrite Hl. exists r, w2, (S m). split; [reflexivity|]. split; [lia|]. split; [done|].
  destruct m as [|m]; [by destruct Hm0|].
  exact (steps_trans _ _ _ _ _ _ _ Hs Hs2).
Qed.

Local Abbreviation accepted w m := (waits_accepted (clock w) delay m).

Lemma refusal_wait w j : refusal w (1 + Z.of_nat j) = sleep_refusal (clock w) (delay * 2 ^ Z.of_nat j).
Proof. do 3 f_equal. lia. Qed.

Lemma retry_all_fail w :
  accepted w (pred (Z.to_nat retries)) →
  (∀ i, (i < Z.to_nat retries)%nat → ok (outcome_at w i) = None) →
  ∃ w', retry att pre retries delay what w = (Ok PyNone, w')
        ∧ steps (Z.to_nat retries) (timeline c req delay 1 (Z.to_nat retries)) w w'.
Proof.
  intros Hz Hfail. unfold retry. rewrite py_range_attempts.
  destruct (loop_all_fail (Z.to_nat retries) 1 w) as (w1 & Hl & Hs); [lia| |done|].
  { intros j Hj. rewrite refusal_wait. apply Hz. lia. }
  rewrite (bind_ok _ _ _ _ _ Hl).
  eexists. split; [reflexivity|]. by apply steps_print.
Qed.

Lemma retry_first_success w k v :
  (k < Z.to_nat retries)%nat → accepted w k →
  (∀ i, (i < k)%nat → ok (outcome_at w i) = None) →
  ok (outcome_at w k) = Some v →
  ∃ w', retry att pre retries delay what w = (Ok v, w')
        ∧ steps (S k) (timeline c req delay 1 (S k)) w w'.
Proof.
  intros Hk Hz Hfail Hok. unfold retry. rewrite py_range_attempts.
  destruct (loop_first_success k (Z.to_nat retries) 1 w v) as (w1 & Hl & Hs);
    [lia|lia| |done|done|].
  { intros j Hj. rewrite refusal_wait. by apply Hz. }
  rewrite (bind_ok _ _ _ _ _ Hl). eauto.
Qed.

Lemma retry_interrupted w k e :
  (S k < Z.to_nat retries)%nat → accepted w k →
  sleep_refusal (clock w) (delay * 2 ^ Z.of_nat k) = Some e →
  (∀ i, (i ≤ k)%nat → ok (outcome_at w i) = None) →
  ∃ w', retry att pre retries delay what w = (Raise e, w')
        ∧ steps (S k) (timeline c req delay 1 (S k)) w w'.
Proof.
  intros Hk Hz He Hfail. unfold retry. rewrite py_range_attempts.
  destruct (loop_interrupted k (Z.to_nat retries) 1 w e) as (w1 & Hl & Hs);
    [lia|lia| | |done|].
  { intros j Hj. rewrite refusal_wait. by apply Hz. }
  { by rewrite refusal_wait. }
  rewrite (bind_raise _ _ _ _ _ Hl). eauto.
Qed.

Lemma retry_shape w :
  ∃ r w' m, retry att pre retries delay what w = (r, w')
            ∧ (m ≤ Z.to_nat retries)%nat
            ∧ steps m (timeline c req delay 1 m) w w'.
Proof.
  unfold retry. rewrite py_range_attempts.
  destruct (loop_shape (Z.to_nat retries) 1 w) as (r & w1 & m & Hl & Hm & _ & Hs); [lia|].
  destruct r as [[v|]|e].
  - rewrite (bind_ok _ _ _ _ _ Hl). by exists (Ok v), w1, m.
  - rewrite (bind_ok _ _ _ _ _ Hl). eexists _, _, m. split; [reflexivity|].
    split; [done|]. by apply steps_print.
  - rewrite (bind_raise _ _ _ _ _ Hl). by exists (Raise e), w1, m.
Qed.

End Retry.

(** ** The stages *)

Lemma failure_attempt_value decode s o :
  decode EmptyString = None → failure decode o → attempt_value decode s o = None.
Proof.
  intros He [e| | |doc Hdoc]; destruct s; cbn; rewrite ?He, ?Hdoc; try done.
  by destruct (negb _).
Qed.



Lemma attempt_value_Some decode s o v :
  attempt_value decode s o = Some v →
  ∃ doc, o = Returns {| text := Some doc |} ∧ decode doc = Some v
         ∧ (∀ user_question, s = Subtopics user_question → doc ≠ EmptyString).
Proof.
  destruct o as [[[doc|]]|e]; [| by destruct s | done].
  intros H. exists doc. split; [done|].
  destruct s; cbn in H; [|by split..].
  destruct (String.eqb doc EmptyString) eqn:E; cbn in H; [done|].
  split; [done|]. intros _ _ ->. done.
Qed.

Lemma attempt_value_decoded decode s doc v :
  (∀ user_question, s = Subtopics user_question → doc ≠ EmptyString) →
  decode doc = Some v →
  attempt_value decode s (body_of doc) = Some v.
Proof.
  intros Hne Hv. destruct s; cbn; [|done..].
  destruct (String.eqb doc EmptyString) eqn:E; cbn; [|done].
  apply String.eqb_eq in E. by destruct (Hne user_question).
Qed.

(** Among the first [n] answers, either all fail or there is a first one
    that does not. *)
Lemma first_success_or_all_fail {A} (f : nat → option A) n :
  (∀ i, (i < n)%nat → f i = None)
  ∨ (∃ k v, (k < n)%nat ∧ (∀ i, (i < k)%nat → f i = None) ∧ f k = Some v).
Proof.
  induction n as [|n [IH|IH]].
  - left. intros i Hi. lia.
  - destruct (f n) as [v|] eqn:E.
    + right. exists n, v. split; [lia|]. split; [|done]. intros i Hi. apply IH. lia.
    + left. intros i Hi. destruct (decide (i = n)) as [->|]; [done|]. apply IH. lia.
  - right. destruct IH as (k & v & Hk & Hfail & Hok). exists k, v. split; [lia|done].
Qed.

Section StageRuns.

Context (decode : string → option pyvalue) (globals : module_globals).
Context (s : stage) (retries delay : Z).

Local Abbreviation value_at w i :=
  (attempt_value decode s (service w i (client globals) (stage_request s))).
Local Abbreviation expected := (timeline (client globals) (stage_request s) delay 1).

Lemma stage_all_fail w :
  waits_accepted (clock w) delay (pred (Z.to_nat retries)) →
  (∀ i, (i < Z.to_nat retries)%nat → value_at w i = None) →
  ∃ w', run_stage decode globals s retries delay w = (Ok PyNone, w')
        ∧ steps (Z.to_nat retries) (expected (Z.to_nat retries)) w w'.
Proof.
  rewrite run_stage_retry.
  apply (retry_all_fail _ _ (attempt_value decode s));
    auto using stage_attempt_steps, stage_announce_steps.
Qed.

Lemma stage_first_success w k v :
  (k < Z.to_nat retries)%nat → waits_accepted (clock w) delay k →
  (∀ i, (i < k)%nat → value_at w i = None) →
  value_at w k = Some v →
  ∃ w', run_stage decode globals s retries delay w = (Ok v, w')
        ∧ steps (S k) (expected (S k)) w w'.
Proof.
  rewrite run_stage_retry.
  apply (retry_first_success _ _ (attempt_value decode s));
    auto using stage_attempt_steps, stage_announce_steps.
Qed.

Lemma stage_interrupted w k e :
  (S k < Z.to_nat retries)%nat → waits_accepted (clock w) delay k →
  sleep_refusal (clock w) (delay * 2 ^ Z.of_nat k) = Some e →
  (∀ i, (i ≤ k)%nat → value_at w i = None) →
  ∃ w', run_stage decode globals s retries delay w = (Raise e, w')
        ∧ steps (S k) (expected (S k)) w w'.
Proof.
  rewrite run_stage_retry.
  apply (retry_interrupted _ _ (attempt_value decode s));
    auto using stage_attempt_steps, stage_announce_steps.
Qed.

Lemma stage_shape w :
  ∃ r w' m, run_stage decode globals s retries delay w = (r, w')
            ∧ (m ≤ Z.to_nat retries)%nat ∧ steps m (expected m) w w'.
Proof.
  rewrite run_stage_retry.
  apply (retry_shape _ _ (attempt_value decode s));
    auto using stage_attempt_steps, stage_announce_steps.
Qed.

End StageRuns.

Lemma steps_fresh_timeline n c req delay m clk srv w :
  steps n (timeline c req delay 1 m) (fresh clk srv) w →
  schedule (trace w) = timeline c req delay 1 m
  ∧ calls (trace w) = replicate m (c, req)
  ∧ sleeps (trace w) = (λ k, delay * 2 ^ (k - 1)) <$> attempts 1 (pred m).
Proof.
  intros H. apply steps_fresh in H as (Hs & Hc & Hz).
  by rewrite Hs, Hc, Hz, calls_timeline, sleeps_timeline.
Qed.

Lemma py_range_backoff retries :
  py_range 1 retries = attempts 1 (pred (Z.to_nat retries)).
Proof. unfold py_range, attempts. do 2 f_equal. lia. Qed.

(** Among the first [m] waits, either [time.sleep] accepts all or there is
    a first one it refuses. *)
Lemma waits_accepted_or_first_refused clk delay m :
  waits_accepted clk delay m
  ∨ (∃ k e, (k < m)%nat ∧ waits_accepted clk delay k
            ∧ sleep_refusal clk (delay * 2 ^ Z.of_nat k) = Some e).
Proof.
  destruct (first_success_or_all_fail
              (λ j, sleep_refusal clk (delay * 2 ^ Z.of_nat j)) m)
    as [Hall|(k & e & Hk & Hbefore & He)]; [by left|].
  right. by exists k, e.
Qed.

(** The three ways a run ends: the budget is used up, an attempt succeeds,
    or [time.sleep] refuses a wait. *)
Lemma stage_run_cases decode globals s retries delay clk srv :
  let c := client globals in
  let req := stage_request s in
  let n := Z.to_nat retries in
  (∃ w', run_stage decode globals s retries delay (fresh clk srv) = (Ok PyNone, w')
         ∧ (∀ i, (i < n)%nat → attempt_value decode s (srv i c req) = None)
         ∧ waits_accepted clk delay (pred n)
         ∧ steps n (timeline c req delay 1 n) (fresh clk srv) w')
  ∨ (∃ k v w', run_stage decode globals s retries delay (fresh clk srv) = (Ok v, w')
               ∧ (k < n)%nat
               ∧ (∀ i, (i < k)%nat → attempt_value decode s (srv i c req) = None)
               ∧ attempt_value decode s (srv k c req) = Some v
               ∧ waits_accepted clk delay k
               ∧ steps (S k) (timeline c req delay 1 (S k)) (fresh clk srv) w')
  ∨ (∃ k e w', run_stage decode globals s retries delay (fresh clk srv) = (Raise e, w')
               ∧ (S k < n)%nat
               ∧ (∀ i, (i ≤ k)%nat → attempt_value decode s (srv i c req) = None)
               ∧ waits_accepted clk delay k
               ∧ sleep_refusal clk (delay * 2 ^ Z.of_nat k) = Some e
               ∧ steps (S k) (timeline c req delay 1 (S k)) (fresh clk srv) w').
Proof.
  intros c req n.
  destruct (first_success_or_all_fail (λ i, attempt_value decode s (srv i c req)) n)
    as [Hall|(k & v & Hk & Hbefore & Hok)].
  - destruct (waits_accepted_or_first_refused clk delay (pred n))
      as [Hz|(j & e & Hj & Hz & He)].
    + destruct (stage_all_fail decode globals s retries delay (fresh clk srv))
        as (w' & Hrun & Hs); [done|done|].
      left. by exists w'.
    + destruct (stage_interrupted decode globals s retries delay (fresh clk srv) j e)
        as (w' & Hrun & Hs); [lia|done|done| |].
      { intros i Hi. apply Hall. lia. }
      right. right. exists j, e, w'. repeat split; try done; [lia| |apply Hs..].
      intros i Hi. apply Hall. lia.
  - destruct (waits_accepted_or_first_refused clk delay k)
      as [Hz|(j & e & Hj & Hz & He)].
    + destruct (stage_first_success decode globals s retries delay (fresh clk srv) k v)
        as (w' & Hrun & Hs); [done..|].
      right. left. by exists k, v, w'.
    + destruct (stage_interrupted decode globals s retries delay (fresh clk srv) j e)
        as (w' & Hrun & Hs); [lia|done|done| |].
      { intros i Hi. apply Hbefore. lia. }
      right. right. exists j, e, w'. repeat split; try done; [lia| |apply Hs..].
      intros i Hi. apply Hbefore. lia.
Qed.

(** ** The decoder and the shapes on samples *)

Example decode_fragment_sample :
  decode_fragment ("{" +:+ q "a" +:+ ": [1, -20, true, null], "
                       +:+ q "b" +:+ ": {}, " +:+ q "a" +:+ ": " +:+ q "x\ty" +:+ " }")
  = Some (PyDict [("a", PyStr ("x" +:+ String (Ascii.ascii_of_nat 9) "y")); ("b", PyDict [])]).
Proof. reflexivity. Qed.

Example decode_fragment_rejects :
  decode_fragment <$> [EmptyString; "not json"; "[1,]"; "01"; "{} {}"; "nul"]
  = [None; None; None; None; None; None].
Proof. reflexivity. Qed.

Example decode_fragment_null : decode_fragment "null" = Some PyNone.
Proof. reflexivity. Qed.

(** The samples of the prompts have the shapes asked for. *)
Example is_SubtopicPlan_sample :
  is_SubtopicPlan
    (PyDict [("subject_area", PyStr "Physics"); ("depth_level", PyStr "Introductory");
             ("question_type", PyStr "Conceptual");
             ("curiosity_tree", PyList [PyStr "Rayleigh scattering";
                                        PyStr "Wavelengths of visible light";
                                        PyStr "Atmosphere composition"])]) = true.
Proof. reflexivity. Qed.

Example valid_match_pairs_sample :
  valid_match_pairs
    (PyDict [("id", PyStr "photosynthesis-basics"); ("type", PyStr "match");
             ("pairs", PyList [PyDict [("prompt", PyStr "Chlorophyll");
                                       ("match", PyStr "Green pigment that captures light energy")];
                               PyDict [("prompt", PyStr "Stomata");
                                       ("match", PyStr "Tiny pores on leaves")]])]) = true.
Proof. reflexivity. Qed.

Example valid_fill_blanks_sample :
  valid_fill_blanks
    (PyDict [("id", PyStr "unique-id"); ("type", PyStr "fill_in_blanks");
             ("text", PyStr "... with ___ and ___");
             ("blanks", PyDict [("1", PyList [PyStr "Melanin"; PyStr "Keratin"; PyStr "Chlorophyll"]);
                                ("2", PyList [PyStr "Melanocytes"; PyStr "Blood cells";
                                              PyStr "Nerve cells"])]);
             ("answers", PyDict [("1", PyStr "Melanin"); ("2", PyStr "Melanocytes")])]) = true.
Proof. reflexivity. Qed.

Example valid_drag_drop_sample :
  valid_drag_drop
    (PyDict [("id", PyStr "unique-id-for-the-activity"); ("type", PyStr "drag_drop");
             ("draggableElements",
              PyList [PyDict [("id", PyStr "id1"); ("label", PyStr "Draggable Term 1")];
                      PyDict [("id", PyStr "id2"); ("label", PyStr "Draggable Term 2")]]);
             ("droppableBlanks",
              PyList [PyDict [("id", PyStr "drop-1");
                              ("label", PyStr "Hint or definition where a term should go");
                              ("correctElementId", PyStr "id1")]])]) = true.
Proof. reflexivity. Qed.

(** Stage 1 sends the question as content and stage 3 the template kind;
    the instructions have the length, in bytes of UTF-8, of the f-strings
    they are taken from. *)
Example stage_requests_sample :
  contents (stage_request (Subtopics "Why is the sky blue?")) = "Why is the sky blue?"
  ∧ contents (stage_request (Activity "Sky" "Blue light scatters." "fill_blanks"))
    = "fill_blanks"
  ∧ String.length (subtopics_system_prompt "Why?") = 892%nat
  ∧ String.length (explanation_system_prompt "S" "Why?") = 1261%nat
  ∧ String.length (activity_system_prompt "T" "E" "quiz") = 2953%nat.
Proof. repeat split; reflexivity. Qed.


(** * The claims *)

(** C10.  With an attempt budget [retries ≤ 0] every stage returns the
    sentinel [None] at once: the service is not called and there is no
    sleep (the loop ranges over nothing; only the closing message is
    printed). *)
Theorem nonpositive_budget_makes_no_attempt decode globals s retries delay clk srv :
  retries ≤ 0 →
  ∃ w', run_stage decode globals s retries delay (fresh clk srv) = (Ok PyNone, w')
        ∧ calls (trace w') = []
        ∧ sleeps (trace w') = []
        ∧ trace w' = [Print (MaxRetriesReached (stage_farewell s))].
Proof.
  intros H.
  exists {| service := srv; clock := clk;
            trace := [Print (MaxRetriesReached (stage_farewell s))] |}.
  split; [|done].
  rewrite run_stage_retry. unfold retry. rewrite py_range_attempts.
  by replace (Z.to_nat retries) with O by lia.
Qed.

Lemma nonpositive_budget_makes_no_attempt_witness :
  -2 ≤ 0 ∧
  ∃ w', run_stage decode_fragment test_globals (Activity "Sky" "Blue light scatters." "quiz")
          (-2) 3 (fresh strict_clock (always (body_of "{}"))) = (Ok PyNone, w')
        ∧ calls (trace w') = []
        ∧ sleeps (trace w') = []
        ∧ trace w' = [Print (MaxRetriesReached "Could not generate activity.")].
Proof.
  split; [lia|].
  apply (nonpositive_budget_makes_no_attempt decode_fragment test_globals
           (Activity "Sky" "Blue light scatters." "quiz") (-2) 3 strict_clock
           (always (body_of "{}"))).
  lia.
Defined.

(** C7.  With the default budget [retries = 1] every stage calls the
    service exactly once, never sleeps, and returns what its [try] block
    made of the answer: the decoded value when the answer carries a body
    the decoder accepts, the sentinel [None] when the attempt failed in
    any way.  No second call is made. *)
Theorem default_budget_single_attempt decode globals s delay clk srv :
  let o := srv 0%nat (client globals) (stage_request s) in
  ∃ r w', run_stage decode globals s default_retries delay (fresh clk srv) = (r, w')
    ∧ calls (trace w') = [(client globals, stage_request s)]
    ∧ sleeps (trace w') = []
    ∧ r = Ok (default PyNone (attempt_value decode s o))
    ∧ (∀ doc v, o = body_of doc → doc ≠ EmptyString → decode doc = Some v → r = Ok v)
    ∧ (decode EmptyString = None → failure decode o → r = Ok PyNone).
Proof.
  intros o.
  assert (∃ w', run_stage decode globals s default_retries delay (fresh clk srv)
                = (Ok (default PyNone (attempt_value decode s o)), w')
                ∧ calls (trace w') = [(client globals, stage_request s)]
                ∧ sleeps (trace w') = []) as (w' & Hrun & Hcalls & Hsleeps).
  { destruct (attempt_value decode s o) as [v|] eqn:E.
    - destruct (stage_first_success decode globals s default_retries delay (fresh clk srv) 0 v)
        as (w' & Hrun & Hs); [unfold default_retries; lia|intros j Hj; lia|intros; lia|done|].
      exists w'. split; [done|].
      by apply steps_fresh_timeline in Hs as (_ & -> & ->).
    - destruct (stage_all_fail decode globals s default_retries delay (fresh clk srv))
        as (w' & Hrun & Hs); [intros j Hj; unfold default_retries in Hj; simpl in Hj; lia| |].
      { intros i Hi. assert (i = O) as -> by (unfold default_retries in Hi; lia). done. }
      exists w'. split; [done|].
      by apply steps_fresh_timeline in Hs as (_ & -> & ->). }
  eexists _, w'. do 4 (split; [done|]). split.
  - intros doc v Ho Hne Hv. rewrite Ho.
    rewrite (attempt_value_decoded decode s doc v); [done| |done]. by intros.
  - intros He Hfail. by rewrite (failure_attempt_value decode s o He Hfail).
Qed.

Lemma default_budget_single_attempt_witness :
  (∃ v w', decode_fragment short_plan_doc = Some v
           ∧ run_stage decode_fragment test_globals (Subtopics "Why is the sky blue?")
               default_retries default_delay
               (fresh strict_clock (always (body_of short_plan_doc)))
             = (Ok v, w')
           ∧ length (calls (trace w')) = 1%nat ∧ sleeps (trace w') = [])
  ∧ (∃ w', run_stage decode_fragment test_globals (Explanation "Scattering" "Why?")
             default_retries default_delay
             (fresh strict_clock (always (Raises (APIError 429 "rate limit"))))
           = (Ok PyNone, w')
           ∧ length (calls (trace w')) = 1%nat ∧ sleeps (trace w') = []).
Proof.
  split.
  - destruct (decode_fragment short_plan_doc) as [v|] eqn:Ev; [|by vm_compute in Ev].
    destruct (default_budget_single_attempt decode_fragment test_globals
                (Subtopics "Why is the sky blue?") default_delay strict_clock
                (always (body_of short_plan_doc)))
      as (r & w' & Hrun & Hcalls & Hsleeps & _ & Hok & _).
    rewrite (Hok short_plan_doc v) in Hrun; [|reflexivity|discriminate|exact Ev].
    exists v, w'. rewrite Hcalls. by repeat split.
  - destruct (default_budget_single_attempt decode_fragment test_globals
                (Explanation "Scattering" "Why?") default_delay strict_clock
                (always (Raises (APIError 429 "rate limit"))))
      as (r & w' & Hrun & Hcalls & Hsleeps & _ & _ & Hfail).
    rewrite Hfail in Hrun; [|reflexivity|constructor].
    exists w'. rewrite Hcalls. by repeat split.
Defined.

(** What a refused wait does, for the record: [time.sleep] is called
    outside of the [try], so that when it refuses the wait after a failed
    first attempt that is not the last, the stage lets its exception
    through; a negative delay is refused with [ValueError], one beyond
    9223372036 seconds with [OverflowError]. *)
Lemma refused_wait_raises decode globals s retries delay clk srv e :
  2 ≤ retries → sleep_refusal clk delay = Some e →
  attempt_value decode s (srv 0%nat (client globals) (stage_request s)) = None →
  ∃ w', run_stage decode globals s retries delay (fresh clk srv) = (Raise e, w')
        ∧ calls (trace w') = [(client globals, stage_request s)]
        ∧ sleeps (trace w') = [].
Proof.
  intros Hn He Hfail.
  destruct (stage_interrupted decode globals s retries delay (fresh clk srv) 0 e)
    as (w' & Hrun & Hs); [lia|intros j Hj; lia| | |].
  { cbn [fresh clock]. change (2 ^ Z.of_nat 0) with 1. by rewrite Z.mul_1_r. }
  { intros i Hi. by assert (i = O) as -> by lia. }
  exists w'. split; [done|].
  by apply steps_fresh_timeline in Hs as (_ & -> & ->).
Qed.

(** C2.  In every stage, when every attempt of the budget fails, be it by
    a transport error, an empty body or a malformed document and in
    whatever order, a run that uses up the budget ends with the sentinel
    [None] and raises nothing: the value returned says nothing of the
    failures.  The budget is used up whenever [time.sleep] accepts the
    waits in between; when it refuses one, the stage ends there with its
    exception, see [refused_wait_raises]. *)
Theorem exhausted_budget_returns_sentinel decode globals s retries delay clk srv :
  decode EmptyString = None →
  (∀ i, (i < Z.to_nat retries)%nat →
        failure decode (srv i (client globals) (stage_request s))) →
  ∃ r w', run_stage decode globals s retries delay (fresh clk srv) = (r, w')
          ∧ (length (calls (trace w')) = Z.to_nat retries → r = Ok PyNone)
          ∧ (waits_accepted clk delay (pred (Z.to_nat retries)) →
             r = Ok PyNone ∧ length (calls (trace w')) = Z.to_nat retries).
Proof.
  intros He Hfail.
  destruct (stage_run_cases decode globals s retries delay clk srv)
    as [(w' & Hrun & _ & _ & Hs)
       |[(k & v & w' & Hrun & Hk & _ & Hok & _)
        |(k & e & w' & Hrun & Hk & _ & _ & Hek & Hs)]].
  - exists (Ok PyNone), w'. split; [done|]. split; [done|]. intros _. split; [done|].
    apply steps_fresh_timeline in Hs as (_ & -> & _). apply length_replicate.
  - rewrite (failure_attempt_value decode s _ He (Hfail k Hk)) in Hok. done.
  - exists (Raise e), w'. split; [done|].
    apply steps_fresh_timeline in Hs as (_ & -> & _). rewrite length_replicate.
    split; [lia|]. intros Hz. rewrite Hz in Hek by lia. done.
Qed.

Lemma exhausted_budget_returns_sentinel_witness :
  let srv := scripted [Raises (APIError 429 "rate limit");
                       Returns {| text := None |};
                       body_of "not json"] (Raises (OtherException "OSError" "down")) in
  ∃ w', run_stage decode_fragment test_globals
          (Explanation "Rayleigh scattering" "Why is the sky blue?") 3 3
          (fresh strict_clock srv)
        = (Ok PyNone, w')
        ∧ length (calls (trace w')) = 3%nat.
Proof.
  intros srv.
  destruct (exhausted_budget_returns_sentinel decode_fragment test_globals
              (Explanation "Rayleigh scattering" "Why is the sky blue?") 3 3 strict_clock srv)
    as (r & w' & Hrun & _ & Hused).
  - reflexivity.
  - intros [|[|[|i]]] Hi; [constructor..|simpl in Hi; lia].
    reflexivity.
  - destruct Hused as [-> Hcalls].
    + intros [|[|j]] Hj; [reflexivity|reflexivity|simpl in Hj; lia].
    + exists w'. split; [exact Hrun|exact Hcalls].
Defined.

(** C3, as the code has it.  In every run of every stage, whatever the
    budget and the delay, the calls and sleeps are laid out as [timeline]
    says: exactly one sleep of [delay * 2^(k-1)] between attempt [k] and
    attempt [k+1], for as many attempts as are made, and none after the
    last.  When all [retries] attempts fail and [time.sleep] accepts the
    waits, all of them are made and the sleeps are [delay * 2^(k-1)] for
    [k] from 1 to [retries - 1]; waits of no more than 4294967 seconds are
    always accepted. *)
Theorem backoff_between_attempts decode globals s retries delay clk srv :
  ∃ r w', run_stage decode globals s retries delay (fresh clk srv) = (r, w')
    ∧ schedule (trace w')
      = timeline (client globals) (stage_request s) delay 1 (length (calls (trace w')))
    ∧ (length (calls (trace w')) ≤ Z.to_nat retries)%nat
    ∧ (decode EmptyString = None →
       waits_accepted clk delay (pred (Z.to_nat retries)) →
       (∀ i, (i < Z.to_nat retries)%nat →
             failure decode (srv i (client globals) (stage_request s))) →
       length (calls (trace w')) = Z.to_nat retries
       ∧ sleeps (trace w') = (λ k, delay * 2 ^ (k - 1)) <$> py_range 1 retries)
    ∧ (0 ≤ delay → delay * 2 ^ Z.of_nat (pred (pred (Z.to_nat retries))) ≤ sleep_sure →
       waits_accepted clk delay (pred (Z.to_nat retries))).
Proof.
  destruct (stage_shape decode globals s retries delay (fresh clk srv))
    as (r & w' & m & Hrun & Hm & Hs).
  apply steps_fresh_timeline in Hs as (Hsched & Hcalls & Hsleeps).
  assert (length (calls (trace w')) = m) as Hlen by (by rewrite Hcalls, length_replicate).
  exists r, w'. rewrite Hlen. do 3 (split; [done|]). split.
  - intros He Hz Hfail.
    destruct (stage_all_fail decode globals s retries delay (fresh clk srv))
      as (w'' & Hrun' & Hs'); [done| |].
    { intros i Hi. apply failure_attempt_value; [done|]. by apply Hfail. }
    rewrite Hrun in Hrun'. injection Hrun' as -> <-.
    apply steps_fresh_timeline in Hs' as (_ & Hcalls' & Hsleeps').
    split.
    + by rewrite <- Hlen, Hcalls', length_replicate.
    + by rewrite Hsleeps', py_range_backoff.
  - apply waits_accepted_sure.
Qed.

Lemma backoff_between_attempts_witness :
  ∃ r w', run_stage decode_fragment test_globals (Subtopics "Why is the sky blue?") 3 3
            (fresh strict_clock (always (Raises (APIError 429 "rate limit")))) = (r, w')
          ∧ length (calls (trace w')) = 3%nat
          ∧ sleeps (trace w') = [3; 6].
Proof.
  destruct (backoff_between_attempts decode_fragment test_globals
              (Subtopics "Why is the sky blue?") 3 3 strict_clock
              (always (Raises (APIError 429 "rate limit"))))
    as (r & w' & Hrun & _ & _ & Hall & Hsure).
  exists r, w'. split; [exact Hrun|].
  apply Hall; [reflexivity| |].
  - apply Hsure; [lia|]. vm_compute. discriminate.
  - intros i _. constructor.
Defined.

(** The sentence of the specification fails: with a base delay of 10^10
    seconds and a budget of two, [time.sleep] refuses the wait after the
    first failed attempt with [OverflowError], and the run has no sleep at
    all. *)
Lemma backoff_for_every_delay_fails : ¬ backoff_for_every_delay.
Proof.
  intros H.
  specialize (H decode_fragment test_globals (Subtopics "Why is the sky blue?")
                2 10000000000 lenient_clock
                (always (Raises (APIError 429 "rate limit")))
                ltac:(reflexivity) ltac:(intros i _; constructor)).
  destruct (refused_wait_raises decode_fragment test_globals
              (Subtopics "Why is the sky blue?") 2 10000000000 lenient_clock
              (always (Raises (APIError 429 "rate limit")))
              (OverflowError "timestamp too large to convert to C _PyTime_t"))
    as (w' & Hrun & _ & Hsleeps); [lia|reflexivity|reflexivity|].
  rewrite Hrun in H. cbn [snd] in H. rewrite Hsleeps in H.
  vm_compute in H. discriminate.
Qed.




(** C5.  [generate_interactive_activity] returns the value the decoder
    made of the first body it could decode, as it is: the statement
    holds for every value [v], so nothing about the shape of [v] is
    checked on the way.  A body that the run gets to is returned; the
    run gets to it when [time.sleep] accepts the waits before it, of
    which there are none for the first body. *)
Theorem activity_returned_as_decoded decode globals topic explanation template_type
    retries delay clk srv k doc v :
  let c := client globals in
  let req := stage_request (Activity topic explanation template_type) in
  decode EmptyString = None →
  (k < Z.to_nat retries)%nat →
  (∀ i, (i < k)%nat → failure decode (srv i c req)) →
  srv k c req = body_of doc →
  decode doc = Some v →
  ∃ r w', generate_interactive_activity decode globals topic explanation template_type
            retries delay (fresh clk srv) = (r, w')
          ∧ ((k < length (calls (trace w')))%nat →
             r = Ok v ∧ length (calls (trace w')) = S k)
          ∧ (waits_accepted clk delay k →
             r = Ok v ∧ length (calls (trace w')) = S k)
          ∧ (k = O → r = Ok v ∧ length (calls (trace w')) = 1%nat).
Proof.
  intros c req He Hk Hfail Hdoc Hv.
  set (s := Activity topic explanation template_type).
  change (generate_interactive_activity decode globals topic explanation template_type
            retries delay) with (run_stage decode globals s retries delay).
  assert (attempt_value decode s (srv k c req) = Some v) as Hok.
  { rewrite Hdoc. exact Hv. }
  assert (∀ i, (i < k)%nat → attempt_value decode s (srv i c req) = None) as Hnone.
  { intros i Hi. apply failure_attempt_value; [done|]. by apply Hfail. }
  destruct (waits_accepted_or_first_refused clk delay k) as [Hz|(j & e & Hj & Hz & Hej)].
  - destruct (stage_first_success decode globals s retries delay (fresh clk srv) k v)
      as (w' & Hrun & Hs); [done..|].
    exists (Ok v), w'. split; [done|].
    apply steps_fresh_timeline in Hs as (_ & -> & _). rewrite length_replicate.
    repeat split; try done; lia.
  - destruct (stage_interrupted decode globals s retries delay (fresh clk srv) j e)
      as (w' & Hrun & Hs); [lia|done|done| |].
    { intros i Hi. apply Hnone. lia. }
    exists (Raise e), w'. split; [done|].
    apply steps_fresh_timeline in Hs as (_ & -> & _). rewrite length_replicate.
    split; [lia|]. split; [|lia].
    intros Hall. rewrite (Hall j Hj) in Hej. done.
Qed.

Lemma activity_returned_as_decoded_witness :
  (∃ v w', decode_fragment pairs_missing_doc = Some v
           ∧ valid_match_pairs v = false
           ∧ generate_interactive_activity decode_fragment test_globals
               "Photosynthesis" "Plants turn light into sugar." "match_pairs" 2 3
               (fresh strict_clock (scripted [Raises (APIError 503 "overloaded")]
                                             (body_of pairs_missing_doc))) = (Ok v, w')
           ∧ length (calls (trace w')) = 2%nat)
  ∧ (∃ v w', decode_fragment wrong_answer_doc = Some v
             ∧ valid_fill_blanks v = false
             ∧ generate_interactive_activity decode_fragment test_globals
                 "Skin" "Melanin colours the skin." "fill_blanks" default_retries default_delay
                 (fresh strict_clock (always (body_of wrong_answer_doc))) = (Ok v, w')
             ∧ length (calls (trace w')) = 1%nat)
  ∧ (∃ v w', decode_fragment dangling_element_doc = Some v
             ∧ valid_drag_drop v = false
             ∧ generate_interactive_activity decode_fragment test_globals
                 "Sky" "Blue light scatters." default_template_type default_retries
                 default_delay (fresh strict_clock (always (body_of dangling_element_doc)))
               = (Ok v, w')
             ∧ length (calls (trace w')) = 1%nat).
Proof.
  split; [|split].
  - destruct (decode_fragment pairs_missing_doc) as [v|] eqn:Ev; [|by vm_compute in Ev].
    destruct (activity_returned_as_decoded decode_fragment test_globals
                "Photosynthesis" "Plants turn light into sugar." "match_pairs" 2 3
                strict_clock
                (scripted [Raises (APIError 503 "overloaded")] (body_of pairs_missing_doc))
                1%nat pairs_missing_doc v) as (r & w' & Hrun & _ & Hacc & _);
      [reflexivity|simpl; lia| |reflexivity|exact Ev|].
    { intros i Hi. assert (i = O) as -> by lia. constructor. }
    destruct Hacc as [-> Hcalls].
    { intros j Hj. assert (j = O) as -> by lia. reflexivity. }
    exists v, w'. split; [reflexivity|]. split; [|by split].
    vm_compute in Ev. injection Ev as <-. reflexivity.
  - destruct (decode_fragment wrong_answer_doc) as [v|] eqn:Ev; [|by vm_compute in Ev].
    destruct (activity_returned_as_decoded decode_fragment test_globals
                "Skin" "Melanin colours the skin." "fill_blanks" default_retries default_delay
                strict_clock (always (body_of wrong_answer_doc)) O wrong_answer_doc v)
      as (r & w' & Hrun & _ & _ & Hfirst);
      [reflexivity|unfold default_retries; lia|intros i Hi; lia|reflexivity|exact Ev|].
    destruct Hfirst as [-> Hcalls]; [done|].
    exists v, w'. split; [reflexivity|]. split; [|by split].
    vm_compute in Ev. injection Ev as <-. reflexivity.
  - destruct (decode_fragment dangling_element_doc) as [v|] eqn:Ev; [|by vm_compute in Ev].
    destruct (activity_returned_as_decoded decode_fragment test_globals
                "Sky" "Blue light scatters." default_template_type default_retries
                default_delay strict_clock (always (body_of dangling_element_doc)) O
                dangling_element_doc v) as (r & w' & Hrun & _ & _ & Hfirst);
      [reflexivity|unfold default_retries; lia|intros i Hi; lia|reflexivity|exact Ev|].
    destruct Hfirst as [-> Hcalls]; [done|].
    exists v, w'. split; [reflexivity|]. split; [|by split].
    vm_compute in Ev. injection Ev as <-. reflexivity.
Defined.

(** C8.  Decoding is a function of the body alone.  A well-formed body
    put through [json.loads] twice, in whatever state of the world, gives
    twice the same value and changes nothing; and two runs, of any stages
    and with any parameters, whose first answer carries that body return
    equal values. *)
Theorem parsing_is_deterministic decode globals doc :
  is_Some (decode doc) →
  ∃ v,
    (∀ w1 w2, json_loads decode (Some doc) w1 = (Ok v, w1)
              ∧ json_loads decode (Some doc) w2 = (Ok v, w2))
    ∧ (doc ≠ EmptyString →
       ∀ s1 s2 retries1 retries2 delay1 delay2 clk1 clk2 srv1 srv2,
         1 ≤ retries1 → 1 ≤ retries2 →
         srv1 0%nat (client globals) (stage_request s1) = body_of doc →
         srv2 0%nat (client globals) (stage_request s2) = body_of doc →
         ∃ w1 w2,
           run_stage decode globals s1 retries1 delay1 (fresh clk1 srv1) = (Ok v, w1)
           ∧ run_stage decode globals s2 retries2 delay2 (fresh clk2 srv2) = (Ok v, w2)).
Proof.
  intros [v Hv]. exists v. split.
  - intros w1 w2. unfold json_loads. rewrite Hv. by split.
  - intros Hne s1 s2 retries1 retries2 delay1 delay2 clk1 clk2 srv1 srv2 H1 H2 E1 E2.
    destruct (stage_first_success decode globals s1 retries1 delay1 (fresh clk1 srv1) 0 v)
      as (w1 & Hrun1 & _); [lia|intros j Hj; lia|intros; lia| |].
    { cbn [fresh service]. rewrite E1. by apply attempt_value_decoded. }
    destruct (stage_first_success decode globals s2 retries2 delay2 (fresh clk2 srv2) 0 v)
      as (w2 & Hrun2 & _); [lia|intros j Hj; lia|intros; lia| |].
    { cbn [fresh service]. rewrite E2. by apply attempt_value_decoded. }
    by exists w1, w2.
Qed.

Lemma parsing_is_deterministic_witness :
  ∃ v w1 w2,
    run_stage decode_fragment test_globals (Subtopics "Why is the sky blue?") 1 3
      (fresh strict_clock (always (body_of short_plan_doc))) = (Ok v, w1)
    ∧ run_stage decode_fragment test_globals (Subtopics "Why is grass green?") 4 0
        (fresh lenient_clock (scripted [body_of short_plan_doc] (Raises (APIError 500 "down"))))
      = (Ok v, w2).
Proof.
  destruct (parsing_is_deterministic decode_fragment test_globals short_plan_doc)
    as (v & _ & Hruns); [by vm_compute; eexists|].
  destruct (Hruns ltac:(discriminate)
              (Subtopics "Why is the sky blue?") (Subtopics "Why is grass green?")
              1 4 3 0 strict_clock lenient_clock
              (always (body_of short_plan_doc))
              (scripted [body_of short_plan_doc] (Raises (APIError 500 "down"))))
    as (w1 & w2 & H1 & H2); [lia|lia|reflexivity|reflexivity|].
  by exists v, w1, w2.
Defined.

(** All the calls of a run carry the request of the stage, and there is
    one at least when the budget is positive. *)
Lemma stage_calls decode globals s retries delay clk srv :
  ∃ m, calls (trace (run_stage decode globals s retries delay (fresh clk srv)).2)
       = replicate m (client globals, stage_request s)
       ∧ (1 ≤ retries → m ≠ O).
Proof.
  destruct (stage_run_cases decode globals s retries delay clk srv)
    as [(w' & Hrun & _ & _ & Hs)
       |[(k & v & w' & Hrun & _ & _ & _ & _ & Hs)
        |(k & e & w' & Hrun & _ & _ & _ & _ & Hs)]];
    rewrite Hrun; cbn [snd];
    apply steps_fresh_timeline in Hs as (_ & -> & _);
    eexists; (split; [reflexivity|]); lia.
Qed.

(** C9.  Every request of stage 1 carries the sampling temperature 0.7 and
    the output ceiling 500, every request of stage 2 the temperature 0.7
    and the ceiling 1000; with a budget of one attempt or more such a
    request is sent, through the client of the module; and the second
    ceiling is the larger. *)
Theorem output_ceilings decode globals retries delay clk srv :
  (∀ user_question,
     (∀ c req,
        (c, req) ∈ calls (trace (generate_subtopics decode globals user_question
                                   retries delay (fresh clk srv)).2) →
        temperature (config req) = 0.7%Q ∧ max_output_tokens (config req) = Some 500)
     ∧ (1 ≤ retries →
        ∃ req rest,
          calls (trace (generate_subtopics decode globals user_question
                          retries delay (fresh clk srv)).2) = (client globals, req) :: rest
          ∧ temperature (config req) = 0.7%Q
          ∧ max_output_tokens (config req) = Some 500))
  ∧ (∀ subtopic user_question,
       (∀ c req,
          (c, req) ∈ calls (trace (generate_explanation_and_activity decode globals subtopic
                                     user_question retries delay (fresh clk srv)).2) →
          temperature (config req) = 0.7%Q ∧ max_output_tokens (config req) = Some 1000)
       ∧ (1 ≤ retries →
          ∃ req rest,
            calls (trace (generate_explanation_and_activity decode globals subtopic
                            user_question retries delay (fresh clk srv)).2)
            = (client globals, req) :: rest
            ∧ temperature (config req) = 0.7%Q
            ∧ max_output_tokens (config req) = Some 1000))
  ∧ (∀ user_question subtopic user_question',
       ∃ a b, max_output_tokens (subtopics_config user_question) = Some a
              ∧ max_output_tokens (explanation_config subtopic user_question') = Some b
              ∧ a = 500 ∧ b = 1000 ∧ a < b).
Proof.
  split; [|split].
  - intros user_question.
    destruct (stage_calls decode globals (Subtopics user_question) retries delay clk srv)
      as (m & Hm & Hpos).
    change (run_stage decode globals (Subtopics user_question) retries delay)
      with (generate_subtopics decode globals user_question retries delay) in Hm.
    rewrite Hm. split.
    + intros c req Hin. apply elem_of_replicate in Hin as [[= -> ->] _]. done.
    + intros Hn. destruct m as [|m]; [by destruct Hpos|].
      by exists (stage_request (Subtopics user_question)),
                (replicate m (client globals, stage_request (Subtopics user_question))).
  - intros subtopic user_question.
    destruct (stage_calls decode globals (Explanation subtopic user_question) retries delay
                clk srv) as (m & Hm & Hpos).
    change (run_stage decode globals (Explanation subtopic user_question) retries delay)
      with (generate_explanation_and_activity decode globals subtopic user_question
              retries delay) in Hm.
    rewrite Hm. split.
    + intros c req Hin. apply elem_of_replicate in Hin as [[= -> ->] _]. done.
    + intros Hn. destruct m as [|m]; [by destruct Hpos|].
      by exists (stage_request (Explanation subtopic user_question)),
                (replicate m (client globals,
                              stage_request (Explanation subtopic user_question))).
  - intros ? ? ?. exists 500, 1000. by repeat split.
Qed.

Lemma output_ceilings_witness :
  (∃ req rest,
     calls (trace (generate_subtopics decode_fragment test_globals "Why is the sky blue?"
                     2 3 (fresh strict_clock (always (body_of "not json")))).2)
     = (client test_globals, req) :: rest
     ∧ temperature (config req) = 0.7%Q
     ∧ max_output_tokens (config req) = Some 500)
  ∧ (∃ req rest,
       calls (trace (generate_explanation_and_activity decode_fragment test_globals
                       "Rayleigh scattering" "Why is the sky blue?"
                       2 3 (fresh strict_clock (always (body_of "not json")))).2)
       = (client test_globals, req) :: rest
       ∧ temperature (config req) = 0.7%Q
       ∧ max_output_tokens (config req) = Some 1000).
Proof.
  split.
  - apply (proj2 (proj1 (output_ceilings decode_fragment test_globals 2 3 strict_clock
                           (always (body_of "not json")))
                    "Why is the sky blue?")).
    lia.
  - apply (proj2 (proj1 (proj2 (output_ceilings decode_fragment test_globals 2 3 strict_clock
                                  (always (body_of "not json"))))
                    "Rayleigh scattering" "Why is the sky blue?")).
    lia.
Defined.




(** ** Module initialisation *)

Lemma module_init_falsy dotenv environ :
  truthy (getenv (load_dotenv dotenv environ) "GEMINI_API_KEY") = false →
  module_init dotenv environ
  = Raise (ValueError
             "❌ Missing API Key! Set 'GEMINI_API_KEY' in your environment variables.").
Proof. intros H. unfold module_init. by rewrite H. Qed.

(** C6, as the code has it.  When [GEMINI_API_KEY] is unset or empty once
    [load_dotenv] has run, initialisation raises [ValueError] on the spot,
    with the message of the source, and a program that imports the module
    ends there, whatever it meant to do with the stages: nothing is
    called, slept or printed.  When the key is set and not empty,
    initialisation goes through and builds the client from it. *)
Theorem init_raises_iff_unset_or_empty dotenv environ :
  let key := getenv (load_dotenv dotenv environ) "GEMINI_API_KEY" in
  let missing :=
    ValueError "❌ Missing API Key! Set 'GEMINI_API_KEY' in your environment variables." in
  (key = None ∨ key = Some EmptyString →
   module_init dotenv environ = Raise missing
   ∧ ∀ A (main : module_globals → M A) w,
       import_then dotenv environ main w = (Raise missing, w))
  ∧ (∀ k, key = Some k → k ≠ EmptyString →
     module_init dotenv environ
     = Ok {| GEMINI_API_KEY := Some k; client := {| api_key := Some k |} |}).
Proof.
  intros key missing. split.
  - intros Hkey.
    assert (module_init dotenv environ = Raise missing) as Hinit.
    { apply module_init_falsy. fold key. by destruct Hkey as [-> | ->]. }
    split; [done|]. intros A main w. unfold import_then. by rewrite Hinit.
  - intros k Hkey Hne. unfold module_init. fold key. rewrite Hkey. cbn.
    destruct (String.eqb k EmptyString) eqn:E; [|done].
    by apply String.eqb_eq in E.
Qed.

Lemma init_raises_iff_unset_or_empty_witness :
  (∀ A (main : module_globals → M A) w,
     import_then ∅ ∅ main w
     = (Raise (ValueError
                 "❌ Missing API Key! Set 'GEMINI_API_KEY' in your environment variables."), w))
  ∧ module_init {[ "GEMINI_API_KEY" := "from-dotenv" ]} ∅
    = Ok {| GEMINI_API_KEY := Some "from-dotenv";
            client := {| api_key := Some "from-dotenv" |} |}.
Proof.
  split.
  - apply (proj1 (init_raises_iff_unset_or_empty ∅ ∅)). left. reflexivity.
  - apply (proj2 (init_raises_iff_unset_or_empty {[ "GEMINI_API_KEY" := "from-dotenv" ]} ∅)
             "from-dotenv"); [reflexivity|discriminate].
Defined.

(** The sentence of the specification fails: a key that is present but
    empty is refused like an absent one. *)
Lemma init_raises_iff_absent_fails : ¬ init_raises_iff_absent.
Proof.
  intros H.
  destruct (H ∅ {[ "GEMINI_API_KEY" := EmptyString ]}) as [_ Hpresent].
  destruct Hpresent as [globals Hinit]; [by eexists|].
  rewrite module_init_falsy in Hinit; [discriminate|reflexivity].
Qed.

(** * More of the module

    What follows is read off the code alone. *)

(** ** Exceptions that leave a stage *)


(** X1.  When [time.sleep] accepts the waits of the budget, no stage lets
    an exception out, whatever the service and the decoder do.  It accepts
    them when there is none, the budget being of one attempt at most, and
    when the delay is not negative and the longest wait is of no more than
    4294967 seconds. *)
Theorem stage_never_raises decode globals s retries delay clk srv :
  waits_accepted clk delay (pred (Z.to_nat retries))
  ∨ retries ≤ 1
  ∨ (0 ≤ delay ∧ delay * 2 ^ Z.of_nat (pred (pred (Z.to_nat retries))) ≤ sleep_sure) →
  ∃ v w', run_stage decode globals s retries delay (fresh clk srv) = (Ok v, w').
Proof.
  intros Hd.
  assert (waits_accepted clk delay (pred (Z.to_nat retries))) as Hz.
  { destruct Hd as [Hz|[Hn|[Hd Hsure]]]; [done| |by apply waits_accepted_sure].
    intros j Hj. lia. }
  destruct (stage_run_cases decode globals s retries delay clk srv)
    as [(w' & Hrun & _)|[(k & v & w' & Hrun & _)|(k & e & w' & _ & Hk & _ & _ & Hek & _)]].
  - by exists PyNone, w'.
  - by exists v, w'.
  - rewrite Hz in Hek by lia. done.
Qed.

Lemma stage_never_raises_witness :
  ∃ v w', run_stage decode_fragment test_globals (Subtopics "Why is the sky blue?") 5 0
            (fresh strict_clock
               (scripted [Raises (OtherException "ConnectionError" "reset");
                          body_of "not json"; Returns {| text := None |}]
                         (Raises (APIError 500 "internal")))) = (Ok v, w').
Proof.
  apply (stage_never_raises decode_fragment test_globals
           (Subtopics "Why is the sky blue?") 5 0 strict_clock).
  right. right. split; [lia|]. vm_compute. discriminate.
Defined.



(** ** What is sent *)

(** X3.  Every call of a run goes through the module's client and sends
    the same request: the model [gemini-2.5-flash-lite], JSON asked for, the
    temperature 0.7, and as content the question (stage 1), the subtopic
    (stage 2) or the template kind alone (stage 3, whose topic and
    explanation travel in the instruction only, and which sets no output
    ceiling). *)
Theorem every_attempt_sends_the_stage_request decode globals s retries delay clk srv c req :
  (c, req) ∈ calls (trace (run_stage decode globals s retries delay (fresh clk srv)).2) →
  c = client globals
  ∧ model req = "gemini-2.5-flash-lite"
  ∧ response_mime_type (config req) = "application/json"
  ∧ temperature (config req) = 0.7%Q
  ∧ match s with
    | Subtopics user_question =>
        contents req = user_question
        ∧ system_instruction (config req) = subtopics_system_prompt user_question
    | Explanation subtopic user_question =>
        contents req = subtopic
        ∧ system_instruction (config req) = explanation_system_prompt subtopic user_question
    | Activity topic explanation template_type =>
        contents req = template_type
        ∧ system_instruction (config req)
          = activity_system_prompt topic explanation template_type
        ∧ max_output_tokens (config req) = None
    end.
Proof.
  intros Hin.
  destruct (stage_calls decode globals s retries delay clk srv) as (m & Hm & _).
  rewrite Hm in Hin. apply elem_of_replicate in Hin as [[= -> ->] _].
  by destruct s.
Qed.

Lemma every_attempt_sends_the_stage_request_witness :
  let req := stage_request (Activity "Sky" "Blue light scatters." "fill_blanks") in
  contents req = "fill_blanks" ∧ max_output_tokens (config req) = None.
Proof.
  intros req.
  destruct (every_attempt_sends_the_stage_request decode_fragment test_globals
              (Activity "Sky" "Blue light scatters." "fill_blanks") 1 3 strict_clock
              (always (body_of "{}")) (client test_globals) req)
    as (_ & _ & _ & _ & Hc & _ & Hm).
  - apply list_elem_of_In. vm_compute. left. reflexivity.
  - by split.
Defined.

(** ** Time spent waiting *)

Definition total (l : list Z) : Z := foldr Z.add 0 l.

Lemma total_backoff_from delay k m :
  1 ≤ k →
  total ((λ j, delay * 2 ^ (j - 1)) <$> attempts k m)
  = delay * 2 ^ (k - 1) * (2 ^ Z.of_nat m - 1).
Proof.
  revert k. induction m as [|m IH]; intros k Hk.
  - cbn. lia.
  - rewrite attempts_S. cbn [fmap list_fmap total foldr].
    change (foldr Z.add 0 ?l) with (total l). rewrite IH by lia.
    replace (k + 1 - 1) with (Z.succ (k - 1)) by lia.
    rewrite Z.pow_succ_r by lia.
    rewrite Nat2Z.inj_succ, Z.pow_succ_r by lia. lia.
Qed.

(** X4.  The sleeps of a run add up to [delay * (2^(m-1) - 1)], [m] being
    the number of calls made ([0] when there was none); with a delay that
    is not negative this is at most [delay * (2^(retries-1) - 1)]. *)
Theorem total_backoff decode globals s retries delay clk srv :
  let w' := (run_stage decode globals s retries delay (fresh clk srv)).2 in
  let m := length (calls (trace w')) in
  total (sleeps (trace w')) = delay * (2 ^ Z.of_nat (pred m) - 1)
  ∧ (0 ≤ delay →
     total (sleeps (trace w')) ≤ delay * (2 ^ Z.of_nat (pred (Z.to_nat retries)) - 1)).
Proof.
  destruct (stage_shape decode globals s retries delay (fresh clk srv))
    as (r & w' & m & Hrun & Hm & Hs).
  rewrite Hrun. cbn [snd].
  apply steps_fresh_timeline in Hs as (_ & Hc & Hz).
  rewrite Hc, Hz, length_replicate, total_backoff_from by lia.
  change (2 ^ (1 - 1)) with 1. split; [lia|].
  intros Hd. rewrite Z.mul_1_r. apply Z.mul_le_mono_nonneg_l; [done|].
  apply Z.sub_le_mono_r, Z.pow_le_mono_r; lia.
Qed.

Lemma total_backoff_witness :
  let w' := (run_stage decode_fragment test_globals (Explanation "Scattering" "Why?") 4 3
               (fresh strict_clock (always (Raises (APIError 429 "rate limit"))))).2 in
  length (calls (trace w')) = 4%nat
  ∧ total (sleeps (trace w')) = 21
  ∧ (0 ≤ 3 → total (sleeps (trace w')) ≤ 21).
Proof.
  intros w'.
  destruct (total_backoff decode_fragment test_globals (Explanation "Scattering" "Why?") 4 3
              strict_clock (always (Raises (APIError 429 "rate limit")))) as [Hsum Hle].
  fold w' in Hsum, Hle.
  assert (length (calls (trace w')) = 4%nat) as Hm by (by vm_compute).
  rewrite Hm in Hsum. split; [exact Hm|]. split; [exact Hsum|exact Hle].
Defined.

(** ** What a run depends on *)

(** X5.  A run looks at no more than the first [retries] answers to its
    request: two services that agree on those end the stage with the same
    result after the same calls and sleeps. *)
Theorem run_depends_on_budgeted_answers decode globals s retries delay clk srv1 srv2 :
  (∀ i, (i < Z.to_nat retries)%nat →
        srv1 i (client globals) (stage_request s) = srv2 i (client globals) (stage_request s)) →
  (run_stage decode globals s retries delay (fresh clk srv1)).1
  = (run_stage decode globals s retries delay (fresh clk srv2)).1
  ∧ schedule (trace (run_stage decode globals s retries delay (fresh clk srv1)).2)
    = schedule (trace (run_stage decode globals s retries delay (fresh clk srv2)).2).
Proof.
  intros Hsame.
  destruct (stage_run_cases decode globals s retries delay clk srv1)
    as [(w1 & Hrun1 & Hall & Hd & Hs1)
       |[(k & v & w1 & Hrun1 & Hk & Hbefore & Hok & Hd & Hs1)
        |(k & e & w1 & Hrun1 & Hk & Hbefore & Hd & Hek & Hs1)]].
  - destruct (stage_all_fail decode globals s retries delay (fresh clk srv2))
      as (w2 & Hrun2 & Hs2); [done| |].
    { intros i Hi. cbn [fresh service]. rewrite <- Hsame by done. by apply Hall. }
    rewrite Hrun1, Hrun2. split; [done|]. cbn [snd].
    apply steps_fresh in Hs1 as (-> & _). by apply steps_fresh in Hs2 as (-> & _).
  - destruct (stage_first_success decode globals s retries delay (fresh clk srv2) k v)
      as (w2 & Hrun2 & Hs2); [done|done| | |].
    { intros i Hi. cbn [fresh service]. rewrite <- Hsame by lia. by apply Hbefore. }
    { cbn [fresh service]. by rewrite <- Hsame. }
    rewrite Hrun1, Hrun2. split; [done|]. cbn [snd].
    apply steps_fresh in Hs1 as (-> & _). by apply steps_fresh in Hs2 as (-> & _).
  - destruct (stage_interrupted decode globals s retries delay (fresh clk srv2) k e)
      as (w2 & Hrun2 & Hs2); [done|done|done| |].
    { intros i Hi. cbn [fresh service]. rewrite <- Hsame by lia. by apply Hbefore. }
    rewrite Hrun1, Hrun2. split; [done|]. cbn [snd].
    apply steps_fresh in Hs1 as (-> & _). by apply steps_fresh in Hs2 as (-> & _).
Qed.

Lemma run_depends_on_budgeted_answers_witness :
  let s := Subtopics "Why is the sky blue?" in
  let srv1 := scripted [body_of "not json"; body_of short_plan_doc] (body_of "{}") in
  let srv2 := scripted [body_of "not json"; body_of short_plan_doc]
                       (Raises (APIError 500 "down")) in
  (run_stage decode_fragment test_globals s 2 3 (fresh strict_clock srv1)).1
  = (run_stage decode_fragment test_globals s 2 3 (fresh strict_clock srv2)).1.
Proof.
  intros s srv1 srv2.
  apply (run_depends_on_budgeted_answers decode_fragment test_globals s 2 3 strict_clock
           srv1 srv2).
  intros [|[|i]] Hi; [reflexivity|reflexivity|simpl in Hi; lia].
Defined.

(** X6.  Budget that a run did not use changes nothing: if a run made
    fewer calls than its budget allows, the same run with any larger
    budget ends with the same result after the same calls and sleeps. *)
Theorem unused_budget_changes_nothing decode globals s retries retries' delay clk srv r w :
  run_stage decode globals s retries delay (fresh clk srv) = (r, w) →
  (length (calls (trace w)) < Z.to_nat retries)%nat →
  retries ≤ retries' →
  ∃ w', run_stage decode globals s retries' delay (fresh clk srv) = (r, w')
        ∧ schedule (trace w') = schedule (trace w).
Proof.
  intros Hrun Hless Hle.
  destruct (stage_run_cases decode globals s retries delay clk srv)
    as [(w1 & Hrun1 & Hall & Hd & Hs1)
       |[(k & v & w1 & Hrun1 & Hk & Hbefore & Hok & Hd & Hs1)
        |(k & e & w1 & Hrun1 & Hk & Hbefore & Hd & Hek & Hs1)]];
    rewrite Hrun in Hrun1; injection Hrun1 as -> ->.
  - apply steps_fresh_timeline in Hs1 as (_ & Hc & _).
    rewrite Hc, length_replicate in Hless. lia.
  - destruct (stage_first_success decode globals s retries' delay (fresh clk srv) k v)
      as (w' & Hrun' & Hs'); [lia|done|done|done|].
    exists w'. split; [done|].
    apply steps_fresh in Hs1 as (-> & _). by apply steps_fresh in Hs' as (-> & _).
  - destruct (stage_interrupted decode globals s retries' delay (fresh clk srv) k e)
      as (w' & Hrun' & Hs'); [lia|done|done|done|].
    exists w'. split; [done|].
    apply steps_fresh in Hs1 as (-> & _). by apply steps_fresh in Hs' as (-> & _).
Qed.

Lemma unused_budget_changes_nothing_witness :
  let s := Explanation "Rayleigh scattering" "Why is the sky blue?" in
  let srv := scripted [Raises (APIError 429 "rate limit")] (body_of "{}") in
  ∃ w w', run_stage decode_fragment test_globals s 3 3 (fresh strict_clock srv)
          = (Ok (PyDict []), w)
          ∧ run_stage decode_fragment test_globals s 10 3 (fresh strict_clock srv)
            = (Ok (PyDict []), w')
          ∧ schedule (trace w') = schedule (trace w).
Proof.
  intros s srv.
  destruct (stage_first_success decode_fragment test_globals s 3 3 (fresh strict_clock srv)
              1 (PyDict []))
    as (w & Hrun & Hs); [simpl; lia| | |reflexivity|].
  { intros j Hj. assert (j = O) as -> by lia. reflexivity. }
  { intros i Hi. assert (i = O) as -> by lia. reflexivity. }
  destruct (unused_budget_changes_nothing decode_fragment test_globals s 3 10 3 strict_clock
              srv (Ok (PyDict [])) w Hrun) as (w' & Hrun' & Hsame).
  - apply steps_fresh_timeline in Hs as (_ & -> & _). simpl. lia.
  - lia.
  - by exists w, w'.
Defined.

(** ** The whole trace of a run *)

Definition json_type_error : exn :=
  TypeError "the JSON object must be str, bytes or bytearray, not NoneType".

(** What a failed attempt prints, by stage: stage 1 tells an [APIError]
    from any other exception and an empty text from both; stages 2 and 3
    have one message for everything. *)
Definition attempt_report (decode : string → option pyvalue) (s : stage) (attempt : Z)
    (o : call_outcome) : list message :=
  match s with
  | Subtopics _ =>
      match o with
      | Raises e => [if is_APIError e then APIErrorOn attempt e else UnexpectedErrorOn attempt e]
      | Returns {| text := Some doc |} =>
          if truthy (Some doc) then
            match decode doc with
            | Some _ => []
            | None => [UnexpectedErrorOn attempt (JSONDecodeError doc)]
            end
          else [EmptyResponseOn attempt]
      | Returns {| text := None |} => [EmptyResponseOn attempt]
      end
  | _ =>
      match o with
      | Raises e => [AttemptFailed attempt e]
      | Returns {| text := Some doc |} =>
          match decode doc with
          | Some _ => []
          | None => [AttemptFailed attempt (JSONDecodeError doc)]
          end
      | Returns {| text := None |} => [AttemptFailed attempt json_type_error]
      end
  end.

(** What is printed before a wait. *)
Definition stage_announcement (s : stage) (delay attempt : Z) : list message :=
  match s with
  | Subtopics _ => [RetryingIn (delay * 2 ^ (attempt - 1))]
  | _ => []
  end.

(** The events of failed attempts that are followed by another one: for
    each, numbered from [k], the call, what is printed of the failure, the
    announcement of the wait and the wait. *)
Fixpoint retried (c : Client) (req : request) (report : Z → call_outcome → list message)
    (announcement : Z → list message) (delay : Z) (k : Z) (os : list call_outcome)
    : list event :=
  match os with
  | [] => []
  | o :: os' =>
      Call c req :: (Print <$> report k o) ++ (Print <$> announcement k)
      ++ Sleep (delay * 2 ^ (k - 1))
      :: retried c req report announcement delay (k + 1) os'
  end.

(** The first [k] answers of a service to a request. *)
Definition answers (srv : nat → Client → request → call_outcome) (c : Client) (req : request)
    (k : nat) : list call_outcome :=
  (λ i, srv i c req) <$> seq 0 k.

(** [extends n evs w w']: from [w] to [w'] the service was called [n] times
    and exactly [evs] was added to the trace; the clock is the same. *)
Definition extends (n : nat) (evs : list event) (w w' : world) : Prop :=
  (∀ i c r, service w' i c r = service w (n + i)%nat c r)
  ∧ clock w' = clock w
  ∧ trace w' = trace w ++ evs.

Lemma extends_refl w : extends 0 [] w w.
Proof. split; [done|]. split; [done|]. by rewrite app_nil_r. Qed.

Lemma extends_trans n1 n2 evs1 evs2 w1 w2 w3 :
  extends n1 evs1 w1 w2 → extends n2 evs2 w2 w3 → extends (n1 + n2) (evs1 ++ evs2) w1 w3.
Proof.
  intros (S1 & C1 & T1) (S2 & C2 & T2). split; [|split].
  - intros i c r. rewrite S2, S1. f_equal. lia.
  - by rewrite C2.
  - by rewrite T2, T1, app_assoc.
Qed.

Lemma extends_print n evs w w1 m :
  extends n evs w w1 →
  extends n (evs ++ [Print m]) w
    {| service := service w1; clock := clock w1; trace := trace w1 ++ [Print m] |}.
Proof.
  intros (S1 & C1 & T1). split; [done|]. split; [done|]. cbn. by rewrite T1, app_assoc.
Qed.

Lemma answers_S srv c req k :
  answers srv c req (S k) = srv 0%nat c req :: answers (λ i, srv (S i)) c req k.
Proof.
  unfold answers. cbn [seq fmap list_fmap]. f_equal.
  by rewrite <- (fmap_S_seq 0), <- list_fmap_compose.
Qed.

Lemma answers_ext srv1 srv2 c req k :
  (∀ i, srv1 i c req = srv2 i c req) → answers srv1 c req k = answers srv2 c req k.
Proof. intros H. apply list_fmap_ext. intros _ i _. apply H. Qed.

Ltac close_attempt H :=
  cbn; eexists; (split; [reflexivity|]);
  first [exact H | exact (extends_print _ _ _ _ _ H)].

Lemma stage_attempt_extends decode globals s a w :
  let c := client globals in
  let req := stage_request s in
  ∃ w', stage_attempt decode globals s a w
        = (Ok (attempt_value decode s (service w 0%nat c req)), w')
        ∧ extends 1 (Call c req :: (Print <$> attempt_report decode s a (service w 0%nat c req)))
                  w w'.
Proof.
  intros c req.
  assert (extends 1 [Call c req] w
            {| service := λ i, service w (S i); clock := clock w;
               trace := trace w ++ [Call c req] |})
    as Hcall by done.
  destruct s; unfold stage_attempt, checked_attempt, plain_attempt, try_except,
    generate_content, mbind, M_bind, mret, M_ret, raise, print, emit, json_loads;
    cbn [model contents config stage_request]; fold c;
    (match goal with |- context [service w 0%nat c ?r] => change r with req end);
    destruct (service w 0%nat c req) as [[[doc|]]|e]; cbn [text attempt_value attempt_report];
    try (destruct (truthy (Some doc)) eqn:Ht); cbn [mbind option_bind];
    try (destruct (decode doc)); try (destruct (is_APIError e));
    close_attempt Hcall.
Qed.

Lemma stage_announce_extends s delay a w :
  ∃ w', stage_announce s delay a w = (Ok (), w')
        ∧ extends 0 (Print <$> stage_announcement s delay a) w w'.
Proof.
  destruct s; cbn.
  - eexists. split; [reflexivity|]. by split.
  - exists w. split; [done|apply extends_refl].
  - exists w. split; [done|apply extends_refl].
Qed.

Lemma sleep_extends secs w :
  sleep_refusal (clock w) secs = None →
  ∃ w', sleep secs w = (Ok (), w') ∧ extends 0 [Sleep secs] w w'.
Proof.
  intros H. unfold sleep. rewrite H.
  eexists. split; [reflexivity|]. by split.
Qed.

Lemma attempt_report_success decode s a o v :
  attempt_value decode s o = Some v → attempt_report decode s a o = [].
Proof.
  destruct o as [[[doc|]]|e]; destruct s; cbn; try done;
    try (destruct (negb _)); cbn; try done; by intros ->.
Qed.

Lemma retried_cons c req report announcement delay k o os :
  retried c req report announcement delay k (o :: os)
  = retried c req report announcement delay k [o]
    ++ retried c req report announcement delay (k + 1) os.
Proof. cbn. by rewrite <- !app_assoc. Qed.

Section StageTrace.

Context (decode : string → option pyvalue) (globals : module_globals).
Context (s : stage) (retries delay : Z).

Local Abbreviation c := (client globals).
Local Abbreviation req := (stage_request s).
Local Abbreviation body :=
  (retry_body (stage_attempt decode globals s) (stage_announce s delay) retries delay).
Local Abbreviation blocks :=
  (retried c req (attempt_report decode s) (stage_announcement s delay) delay).
Local Abbreviation value_at w i := (attempt_value decode s (service w i c req)).
Local Abbreviation refusal w a := (sleep_refusal (clock w) (delay * 2 ^ (a - 1))).

Lemma body_success_extends a w v :
  value_at w 0%nat = Some v →
  ∃ w', body a w = (Ok (Some v), w') ∧ extends 1 [Call c req] w w'.
Proof.
  intros E. destruct (stage_attempt_extends decode globals s a w) as (w1 & Ha & Hs).
  rewrite (attempt_report_success _ _ _ _ _ E) in Hs. rewrite E in Ha.
  unfold retry_body. rewrite (bind_ok _ _ _ _ _ Ha). eauto.
Qed.

Lemma body_last_extends a w :
  value_at w 0%nat = None → retries ≤ a →
  ∃ w', body a w = (Ok None, w')
        ∧ extends 1 (Call c req :: (Print <$> attempt_report decode s a (service w 0%nat c req)))
                  w w'.
Proof.
  intros E Ha'. destruct (stage_attempt_extends decode globals s a w) as (w1 & Ha & Hs).
  rewrite E in Ha. unfold retry_body. rewrite (bind_ok _ _ _ _ _ Ha).
  rewrite bool_decide_eq_false_2 by lia. eauto.
Qed.

Lemma body_retried_extends a w :
  value_at w 0%nat = None → a < retries → refusal w a = None →
  ∃ w', body a w = (Ok None, w') ∧ extends 1 (blocks a [service w 0%nat c req]) w w'.
Proof.
  intros E Ha' Hz. destruct (stage_attempt_extends decode globals s a w) as (w1 & Ha & Hs).
  rewrite E in Ha. unfold retry_body. rewrite (bind_ok _ _ _ _ _ Ha).
  rewrite bool_decide_eq_true_2 by lia.
  destruct (stage_announce_extends s delay a w1) as (w2 & Hp & Hs2).
  rewrite (bind_ok _ _ _ _ _ Hp).
  destruct (sleep_extends (delay * 2 ^ (a - 1)) w2) as (w3 & Hz3 & Hs3).
  { destruct Hs2 as (_ & -> & _). destruct Hs as (_ & -> & _). exact Hz. }
  rewrite (bind_ok _ _ _ _ _ Hz3).
  eexists. split; [reflexivity|].
  pose proof (extends_trans _ _ _ _ _ _ _ (extends_trans _ _ _ _ _ _ _ Hs Hs2) Hs3) as H.
  cbn [retried]. by rewrite <- app_assoc in H.
Qed.


Lemma loop_success_extends k : ∀ n a w v,
  (k < n)%nat → a + Z.of_nat n = retries + 1 →
  (∀ j, (j < k)%nat → refusal w (a + Z.of_nat j) = None) →
  (∀ i, (i < k)%nat → value_at w i = None) →
  value_at w k = Some v →
  ∃ w', for_each (attempts a n) body w = (Ok (Some v), w')
        ∧ extends (S k) (blocks a (answers (service w) c req k) ++ [Call c req]) w w'.
Proof.
  induction k as [|k IH]; intros n a w v Hk Hn Hacc Hfail Hok.
  - destruct n as [|n]; [lia|]. rewrite attempts_S. cbn [for_each].
    destruct (body_success_extends a w v) as (w1 & Hb & Hs); [done|].
    rewrite (bind_ok _ _ _ _ _ Hb). eauto.
  - destruct n as [|n]; [lia|]. rewrite attempts_S. cbn [for_each].
    destruct (body_retried_extends a w) as (w1 & Hb & Hs); [apply Hfail; lia|lia| |].
    { specialize (Hacc O ltac:(lia)).
      by replace (a + Z.of_nat 0) with a in Hacc by lia. }
    rewrite (bind_ok _ _ _ _ _ Hb).
    destruct (IH n (a + 1) w1 v) as (w2 & Hl & Hs2); [lia|lia| | | |].
    { intros j Hj. destruct Hs as (_ & -> & _).
      replace (a + 1 + Z.of_nat j) with (a + Z.of_nat (S j)) by lia. apply Hacc. lia. }
    { intros i Hi. destruct Hs as (-> & _). apply Hfail. lia. }
    { destruct Hs as (-> & _). exact Hok. }
    rewrite Hl. eexists. split; [reflexivity|].
    rewrite answers_S, retried_cons, <- app_assoc.
    rewrite (answers_ext (λ i, service w (S i)) (service w1) c req k)
      by (intros i; by destruct Hs as (-> & _)).
    exact (extends_trans _ _ _ _ _ _ _ Hs Hs2).
Qed.

Lemma loop_fail_extends n : ∀ a w,
  a + Z.of_nat (S n) = retries + 1 →
  (∀ j, (j < n)%nat → refusal w (a + Z.of_nat j) = None) →
  (∀ i, (i < S n)%nat → value_at w i = None) →
  ∃ w', for_each (attempts a (S n)) body w = (Ok None, w')
        ∧ extends (S n)
            (blocks a (answers (service w) c req n)
             ++ Call c req
                :: (Print <$> attempt_report decode s (a + Z.of_nat n) (service w n c req)))
            w w'.
Proof.
  induction n as [|n IH]; intros a w Hn Hacc Hfail.
  - rewrite attempts_S. cbn [for_each attempts seq fmap list_fmap].
    destruct (body_last_extends a w) as (w1 & Hb & Hs); [apply Hfail; lia|lia|].
    rewrite (bind_ok _ _ _ _ _ Hb). exists w1. split; [done|].
    by rewrite Z.add_0_r.
  - rewrite attempts_S. cbn [for_each].
    destruct (body_retried_extends a w) as (w1 & Hb & Hs); [apply Hfail; lia|lia| |].
    { specialize (Hacc O ltac:(lia)).
      by replace (a + Z.of_nat 0) with a in Hacc by lia. }
    rewrite (bind_ok _ _ _ _ _ Hb).
    destruct (IH (a + 1) w1) as (w2 & Hl & Hs2); [lia| | |].
    { intros j Hj. destruct Hs as (_ & -> & _).
      replace (a + 1 + Z.of_nat j) with (a + Z.of_nat (S j)) by lia. apply Hacc. lia. }
    { intros i Hi. destruct Hs as (-> & _). apply Hfail. lia. }
    rewrite Hl. eexists. split; [reflexivity|].
    rewrite answers_S, retried_cons, <- app_assoc.
    rewrite (answers_ext (λ i, service w (S i)) (service w1) c req n)
      by (intros i; by destruct Hs as (-> & _)).
    replace (a + Z.of_nat (S n)) with (a + 1 + Z.of_nat n) by lia.
    replace (service w (S n) c req) with (service w1 n c req) by (by destruct Hs as (-> & _)).
    exact (extends_trans _ _ _ _ _ _ _ Hs Hs2).
Qed.


End StageTrace.

Lemma stage_success_extends decode globals s retries delay clk srv k v :
  let c := client globals in
  let req := stage_request s in
  (k < Z.to_nat retries)%nat → waits_accepted clk delay k →
  (∀ i, (i < k)%nat → attempt_value decode s (srv i c req) = None) →
  attempt_value decode s (srv k c req) = Some v →
  ∃ w', run_stage decode globals s retries delay (fresh clk srv) = (Ok v, w')
        ∧ trace w'
          = retried c req (attempt_report decode s) (stage_announcement s delay) delay 1
              (answers srv c req k) ++ [Call c req].
Proof.
  intros c req Hk Hz Hfail Hok.
  rewrite run_stage_retry. unfold retry. rewrite py_range_attempts.
  destruct (loop_success_extends decode globals s retries delay k (Z.to_nat retries) 1
              (fresh clk srv) v) as (w' & Hl & _ & _ & Ht); [lia|lia| |done|done|].
  { intros j Hj. cbn [fresh clock].
    replace (1 + Z.of_nat j - 1) with (Z.of_nat j) by lia. by apply Hz. }
  rewrite (bind_ok _ _ _ _ _ Hl). by exists w'.
Qed.


(** X7.  A run that succeeds at attempt [k+1], [time.sleep] having
    accepted the [k] waits before, leaves in the trace, for each of the
    [k] failed attempts in order, the call, the line that reports the
    failure, the announcement of the wait (stage 1 only) and the wait,
    then the last call, and nothing else: no closing line.  A success at
    the first attempt leaves the call alone. *)
Theorem trace_of_a_success decode globals s retries delay clk srv k v :
  let c := client globals in
  let req := stage_request s in
  (k < Z.to_nat retries)%nat → waits_accepted clk delay k →
  (∀ i, (i < k)%nat → attempt_value decode s (srv i c req) = None) →
  attempt_value decode s (srv k c req) = Some v →
  ∃ w', run_stage decode globals s retries delay (fresh clk srv) = (Ok v, w')
        ∧ trace w'
          = retried c req (attempt_report decode s) (stage_announcement s delay) delay 1
              (answers srv c req k) ++ [Call c req]
        ∧ (k = O → trace w' = [Call c req]).
Proof.
  intros c req Hk Hz Hfail Hok.
  destruct (stage_success_extends decode globals s retries delay clk srv k v)
    as (w' & Hrun & Ht); [done..|].
  exists w'. do 2 (split; [done|]). intros ->. exact Ht.
Qed.

Lemma trace_of_a_success_witness :
  let s := Subtopics "Why is the sky blue?" in
  let c := client test_globals in
  let req := stage_request s in
  let e := APIError 429 "rate limit" in
  ∃ v w', run_stage decode_fragment test_globals s 3 3
            (fresh strict_clock
               (scripted [Raises e; body_of "not json"] (body_of short_plan_doc)))
          = (Ok v, w')
          ∧ trace w'
            = [Call c req; Print (APIErrorOn 1 e); Print (RetryingIn 3); Sleep 3;
               Call c req; Print (UnexpectedErrorOn 2 (JSONDecodeError "not json"));
               Print (RetryingIn 6); Sleep 6;
               Call c req].
Proof.
  intros s c req e.
  destruct (decode_fragment short_plan_doc) as [v|] eqn:Ev; [|by vm_compute in Ev].
  destruct (trace_of_a_success decode_fragment test_globals s 3 3 strict_clock
              (scripted [Raises e; body_of "not json"] (body_of short_plan_doc)) 2 v)
    as (w' & Hrun & Ht & _).
  - simpl. lia.
  - intros [|[|j]] Hj; [reflexivity|reflexivity|lia].
  - intros [|[|i]] Hi; [reflexivity|reflexivity|lia].
  - cbn. change (truthy (Some short_plan_doc)) with true. exact Ev.
  - exists v, w'. split; [exact Hrun|exact Ht].
Defined.

(** X8.  A run whose [retries ≥ 1] attempts all fail, [time.sleep] having
    accepted the waits in between, leaves in the trace the call, the
    report, the announcement and the wait of each attempt but the last,
    then the last call and its report, then the closing line. *)
Theorem trace_of_an_exhausted_run decode globals s retries delay clk srv :
  let c := client globals in
  let req := stage_request s in
  let n := Z.to_nat retries in
  1 ≤ retries → waits_accepted clk delay (pred n) →
  (∀ i, (i < n)%nat → attempt_value decode s (srv i c req) = None) →
  ∃ w', run_stage decode globals s retries delay (fresh clk srv) = (Ok PyNone, w')
        ∧ trace w'
          = retried c req (attempt_report decode s) (stage_announcement s delay) delay 1
              (answers srv c req (pred n))
            ++ Call c req
               :: (Print <$> attempt_report decode s retries (srv (pred n) c req))
            ++ [Print (MaxRetriesReached (stage_farewell s))].
Proof.
  intros c req n H1 Hz Hfail.
  rewrite run_stage_retry. unfold retry. rewrite py_range_attempts. fold n.
  destruct n as [|m] eqn:En; [lia|].
  destruct (loop_fail_extends decode globals s retries delay m 1 (fresh clk srv))
    as (w' & Hl & _ & _ & Ht); [lia| |done|].
  { intros j Hj. cbn [fresh clock].
    replace (1 + Z.of_nat j - 1) with (Z.of_nat j) by lia. by apply Hz. }
  rewrite (bind_ok _ _ _ _ _ Hl).
  eexists. split; [reflexivity|]. cbn [trace pred].
  rewrite Ht. cbn [fresh trace service app].
  replace (1 + Z.of_nat m) with retries by lia.
  by rewrite <- app_assoc.
Qed.

Lemma trace_of_an_exhausted_run_witness :
  let s := Explanation "Rayleigh scattering" "Why is the sky blue?" in
  let c := client test_globals in
  let req := stage_request s in
  let e := OtherException "ConnectionError" "reset" in
  ∃ w', run_stage decode_fragment test_globals s 2 3
          (fresh strict_clock (scripted [Raises e] (Returns {| text := None |})))
        = (Ok PyNone, w')
        ∧ trace w'
          = [Call c req; Print (AttemptFailed 1 e); Sleep 3;
             Call c req; Print (AttemptFailed 2 json_type_error);
             Print (MaxRetriesReached "Could not get explanation.")].
Proof.
  intros s c req e.
  apply (trace_of_an_exhausted_run decode_fragment test_globals s 2 3 strict_clock
           (scripted [Raises e] (Returns {| text := None |}))); [lia| |].
  - intros [|j] Hj; [reflexivity|simpl in Hj; lia].
  - intros [|[|i]] Hi; [reflexivity|reflexivity|simpl in Hi; lia].
Defined.

(** X9.  A body that decodes to [None] (JSON [null]) ends the stage at
    once with [None], the value of the sentinel, though the attempt did
    not fail: one call, no closing line, and the budget that is left is
    not used. *)
Theorem null_body_is_returned_as_none decode globals s retries delay clk srv doc :
  let c := client globals in
  let req := stage_request s in
  1 ≤ retries → srv 0%nat c req = body_of doc → doc ≠ EmptyString →
  decode doc = Some PyNone →
  ∃ w', run_stage decode globals s retries delay (fresh clk srv) = (Ok PyNone, w')
        ∧ trace w' = [Call c req].
Proof.
  intros c req H1 Hdoc Hne Hv.
  apply (stage_success_extends decode globals s retries delay clk srv 0 PyNone);
    [lia|intros j Hj; lia|intros; lia|].
  fold c req. rewrite Hdoc. apply attempt_value_decoded; [by intros|done].
Qed.

Lemma null_body_is_returned_as_none_witness :
  let s := Subtopics "Why is the sky blue?" in
  ∃ w', run_stage decode_fragment test_globals s 5 3
          (fresh strict_clock (always (body_of "null")))
        = (Ok PyNone, w')
        ∧ trace w' = [Call (client test_globals) (stage_request s)].
Proof.
  intros s.
  apply (null_body_is_returned_as_none decode_fragment test_globals s 5 3 strict_clock
           (always (body_of "null")) "null"); [lia|reflexivity|discriminate|reflexivity].
Defined.

(** ** The key the client is built from *)

(** X10.  Whenever initialisation goes through, the global
    [GEMINI_API_KEY] and the client hold the same key, the key is not
    empty, and it is the one of the process environment when that has one,
    the one of the [.env] file otherwise. *)
Theorem init_keeps_the_key dotenv environ globals :
  module_init dotenv environ = Ok globals →
  ∃ k, k ≠ EmptyString
       ∧ GEMINI_API_KEY globals = Some k
       ∧ api_key (client globals) = Some k
       ∧ (environ !! "GEMINI_API_KEY" = Some k
          ∨ (environ !! "GEMINI_API_KEY" = None ∧ dotenv !! "GEMINI_API_KEY" = Some k)).
Proof.
  unfold module_init, getenv, load_dotenv.
  destruct ((environ ∪ dotenv) !! "GEMINI_API_KEY") as [k|] eqn:E; [|done].
  cbn. destruct (String.eqb k EmptyString) eqn:Ek; [done|]. cbn.
  intros [= <-]. exists k. split; [by apply String.eqb_neq|].
  do 2 (split; [done|]). by apply lookup_union_Some_raw.
Qed.

Lemma init_keeps_the_key_witness :
  let dotenv : gmap string string := {[ "GEMINI_API_KEY" := "from-dotenv" ]} in
  let environ : gmap string string :=
    {[ "GEMINI_API_KEY" := "from-environ"; "HOME" := "/root" ]} in
  let globals :=
    {| GEMINI_API_KEY := Some "from-environ";
       client := {| api_key := Some "from-environ" |} |} in
  module_init dotenv environ = Ok globals
  ∧ ∃ k, k ≠ EmptyString
         ∧ GEMINI_API_KEY globals = Some k
         ∧ api_key (client globals) = Some k
         ∧ (environ !! "GEMINI_API_KEY" = Some k
            ∨ (environ !! "GEMINI_API_KEY" = None ∧ dotenv !! "GEMINI_API_KEY" = Some k)).
Proof.
  intros dotenv environ globals.
  assert (module_init dotenv environ = Ok globals) as Hinit by reflexivity.
  split; [exact Hinit|]. exact (init_keeps_the_key dotenv environ globals Hinit).
Defined.

(** X11.  [load_dotenv] leaves alone a variable that the process
    environment already has: a key set there is the one used, whatever the
    [.env] file says, and a key set there to the empty string makes
    initialisation fail, with the message of the source, even when the
    [.env] file holds a key. *)
Theorem environment_wins_over_dotenv dotenv environ k :
  environ !! "GEMINI_API_KEY" = Some k →
  module_init dotenv environ
  = if String.eqb k EmptyString
    then Raise (ValueError
                  "❌ Missing API Key! Set 'GEMINI_API_KEY' in your environment variables.")
    else Ok {| GEMINI_API_KEY := Some k; client := {| api_key := Some k |} |}.
Proof.
  intros Hk. unfold module_init, getenv, load_dotenv.
  rewrite (lookup_union_Some_l _ _ _ _ Hk). cbn.
  by destruct (String.eqb k EmptyString).
Qed.

Lemma environment_wins_over_dotenv_witness :
  module_init {[ "GEMINI_API_KEY" := "from-dotenv" ]} {[ "GEMINI_API_KEY" := EmptyString ]}
  = Raise (ValueError
             "❌ Missing API Key! Set 'GEMINI_API_KEY' in your environment variables.").
Proof.
  apply (environment_wins_over_dotenv {[ "GEMINI_API_KEY" := "from-dotenv" ]}
           {[ "GEMINI_API_KEY" := EmptyString ]} EmptyString).
  reflexivity.
Defined.

(** ** The instructions *)

Lemma append_assoc s1 s2 s3 : (s1 +:+ s2) +:+ s3 = s1 +:+ (s2 +:+ s3).
Proof.
  induction s1 as [|a s1 IH]; [done|].
  change (String a ((s1 +:+ s2) +:+ s3) = String a (s1 +:+ (s2 +:+ s3))). by rewrite IH.
Qed.

Lemma length_append s1 s2 :
  String.length (s1 +:+ s2) = (String.length s1 + String.length s2)%nat.
Proof.
  induction s1 as [|a s1 IH]; [done|].
  change (S (String.length (s1 +:+ s2)) = S (String.length s1 + String.length s2)).
  by rewrite IH.
Qed.

(** X12.  The instruction of stage 1 is a fixed text of 888 bytes around
    the question, which is put in as it is between two double quotes, at
    the end: nothing of it is escaped, cut or checked. *)
Theorem subtopics_prompt_quotes_the_question :
  ∃ before,
    (∀ user_question,
       subtopics_system_prompt user_question
       = before +:+ dq +:+ user_question +:+ dq +:+ nl +:+ "    ")
    ∧ (∀ user_question,
         String.length (subtopics_system_prompt user_question)
         = (888 + String.length user_question)%nat).
Proof.
  set (before := String.substring 0 881 (subtopics_system_prompt EmptyString)).
  assert (∀ q, subtopics_system_prompt q = before +:+ dq +:+ q +:+ dq +:+ nl +:+ "    ")
    as Hdec.
  { intros q. vm_compute. rewrite !append_assoc. reflexivity. }
  exists before. split; [exact Hdec|].
  intros q. rewrite Hdec, !length_append.
  replace (String.length before) with 881%nat by (by vm_compute).
  cbn. lia.
Qed.

(** X13.  The instruction of stage 2 is a fixed text of 1256 bytes in
    which the question, then the subtopic, are put in as they are, each
    between two double quotes. *)
Theorem explanation_prompt_quotes_its_arguments :
  ∃ before between after,
    (∀ subtopic user_question,
       explanation_system_prompt subtopic user_question
       = before +:+ dq +:+ user_question +:+ dq +:+ between
         +:+ dq +:+ subtopic +:+ dq +:+ after)
    ∧ (∀ subtopic user_question,
         String.length (explanation_system_prompt subtopic user_question)
         = (1256 + String.length subtopic + String.length user_question)%nat).
Proof.
  set (p := explanation_system_prompt EmptyString EmptyString).
  set (before := String.substring 0 210 p).
  set (between := String.substring 212 65 p).
  set (after := String.substring 279 977 p).
  assert (∀ st q, explanation_system_prompt st q
                  = before +:+ dq +:+ q +:+ dq +:+ between +:+ dq +:+ st +:+ dq +:+ after)
    as Hdec.
  { intros st q. vm_compute. rewrite !append_assoc. reflexivity. }
  exists before, between, after. split; [exact Hdec|].
  intros st q. rewrite Hdec, !length_append.
  replace (String.length before) with 210%nat by (by vm_compute).
  replace (String.length between) with 65%nat by (by vm_compute).
  replace (String.length after) with 977%nat by (by vm_compute).
  cbn. lia.
Qed.

(** X14.  The instruction of stage 3 is a fixed text of 2947 bytes that ends
    with the topic, the explanation and the template kind, each put in as
    it is after its label, without quotes. *)
Theorem activity_prompt_ends_with_its_arguments :
  ∃ before after,
    (∀ topic explanation template_type,
       activity_system_prompt topic explanation template_type
       = before +:+ "Topic: " +:+ topic +:+ nl
         +:+ "    Explanation: " +:+ explanation +:+ nl
         +:+ "    Interactive Template: " +:+ template_type +:+ after)
    ∧ String.length after = 49%nat
    ∧ (∀ topic explanation template_type,
         String.length (activity_system_prompt topic explanation template_type)
         = (2947 + String.length topic + String.length explanation
            + String.length template_type)%nat).
Proof.
  set (p := activity_system_prompt EmptyString EmptyString EmptyString).
  set (before := String.substring 0 2846 p).
  set (after := String.substring 2898 49 p).
  assert (∀ t e tt, activity_system_prompt t e tt
                    = before +:+ "Topic: " +:+ t +:+ nl +:+ "    Explanation: " +:+ e +:+ nl
                      +:+ "    Interactive Template: " +:+ tt +:+ after) as Hdec.
  { intros t e tt. vm_compute. rewrite ?append_assoc. reflexivity. }
  exists before, after. split; [exact Hdec|]. split; [by vm_compute|].
  intros t e tt. rewrite Hdec, !length_append.
  replace (String.length before) with 2846%nat by (by vm_compute).
  replace (String.length after) with 49%nat by (by vm_compute).
  cbn. lia.
Qed.

(** ** A refused sleep, in full *)



(** ** What is returned *)

(** X16.  A stage makes nothing up: a value it returns is either [None]
    after all the attempts of the budget have failed, or the value the
    decoder gave for the body of the answer to its last call, a body that
    stage 1 has found not empty. *)
Theorem returned_value_comes_from_the_decoder decode globals s retries delay clk srv v w' :
  let c := client globals in
  let req := stage_request s in
  let n := Z.to_nat retries in
  run_stage decode globals s retries delay (fresh clk srv) = (Ok v, w') →
  (v = PyNone
   ∧ (∀ i, (i < n)%nat → attempt_value decode s (srv i c req) = None)
   ∧ length (calls (trace w')) = n)
  ∨ (∃ k doc, (k < n)%nat ∧ length (calls (trace w')) = S k
              ∧ srv k c req = body_of doc ∧ decode doc = Some v
              ∧ (∀ user_question, s = Subtopics user_question → doc ≠ EmptyString)).
Proof.
  intros c req n Hrun.
  destruct (stage_run_cases decode globals s retries delay clk srv)
    as [(w1 & Hrun1 & Hall & _ & Hs)
       |[(k & v1 & w1 & Hrun1 & Hk & _ & Hok & _ & Hs)
        |(k & e & w1 & Hrun1 & _)]];
    rewrite Hrun in Hrun1; [| |discriminate]; injection Hrun1 as -> ->.
  - left. split; [done|]. split; [done|].
    apply steps_fresh_timeline in Hs as (_ & -> & _). apply length_replicate.
  - right. apply attempt_value_Some in Hok as (doc & Hdoc & Hv & Hne).
    exists k, doc. split; [done|]. split; [|done].
    apply steps_fresh_timeline in Hs as (_ & -> & _). apply length_replicate.
Qed.

Lemma returned_value_comes_from_the_decoder_witness :
  let s := Activity "Sky" "Blue light scatters." "match_pairs" in
  let srv := scripted [Raises (APIError 503 "overloaded")] (body_of pairs_missing_doc) in
  ∃ v w', run_stage decode_fragment test_globals s 3 1 (fresh strict_clock srv) = (Ok v, w')
          ∧ ∃ k doc, length (calls (trace w')) = S k
                     ∧ srv k (client test_globals) (stage_request s) = body_of doc
                     ∧ decode_fragment doc = Some v.
Proof.
  intros s srv.
  destruct (stage_shape decode_fragment test_globals s 3 1 (fresh strict_clock srv))
    as (r & w' & m & Hrun & _ & _).
  destruct r as [v|e]; [|by revert Hrun; vm_compute].
  destruct (returned_value_comes_from_the_decoder decode_fragment test_globals s 3 1
              strict_clock srv v w' Hrun)
    as [(_ & Hall & _)|(k & doc & _ & Hc & Hdoc & Hv & _)].
  - specialize (Hall 1%nat ltac:(simpl; lia)). by vm_compute in Hall.
  - exists v, w'. split; [exact Hrun|]. by exists k, doc.
Defined.
